(** * User microservice: the four CRUD routes of [index.js]

    The service is an Express application over one Mongoose model,
    [User].  Each route handler reads the request, makes at most one call
    to the model and answers with a status code and a JSON body.

    The development has three layers:

    - the JavaScript values a JSON body can put in a field, and the
      truthiness test the handlers apply to them;
    - the route handlers ([index.js], lines 143-346), written against the
      interface of the Mongoose model, so that what they decide before and
      after the storage call is proved for every behaviour of the storage
      layer, failures included;
    - the model [User] itself: the schema of lines 70-77 (types,
      [required], [unique]) run over a collection of documents, as
      Mongoose (6 and later) and MongoDB run it when the database is
      reachable and its indexes are built.

    Outside the model: request bodies that are not JSON objects, fields
    that hold arrays, objects or numbers that are not safe integers, the
    version key [__v], and the time a storage call takes. *)

From Stdlib Require Import Bool List String Ascii ZArith NArith Lia.
From Stdlib Require Import DecimalString.
Import ListNotations.

Local Open Scope string_scope.
Local Open Scope bool_scope.

(** ** JavaScript values *)

(** [Number.MAX_SAFE_INTEGER], 2^53 - 1. *)
Definition max_safe_integer : Z := 9007199254740991.

(** The numbers of the model: the integers [n] of [Number.isSafeInteger(n)],
    which a double holds exactly and [String(n)] prints as their decimal
    numeral. *)
Record SafeInteger : Type := mkSafeInteger {
  integer : Z;
  integer_safe : (Z.abs integer <=? max_safe_integer)%Z = true
}.

(** What [express.json()] can put in a field of [req.body], restricted to
    the scalar JSON values; [JUndefined] is what destructuring yields for
    a key the body does not have. *)
Inductive jsval : Type :=
| JUndefined
| JNull
| JBool (b : bool)
| JNum (n : SafeInteger)
| JStr (s : string).

(** [!!v] *)
Definition truthy (v : jsval) : bool :=
  match v with
  | JUndefined => false
  | JNull => false
  | JBool b => b
  | JNum n => negb (integer n =? 0)%Z
  | JStr s => negb (s =? "")
  end.

(** [!v] *)
Definition falsy (v : jsval) : bool := negb (truthy v).

(** ** Documents *)

(** A BSON ObjectId, as the 96-bit number its 24 hexadecimal digits
    spell. *)
Definition ObjectId := N.

(** A JavaScript [Date], as its time value (milliseconds since the
    epoch). *)
Definition Date := Z.

(** A document of the [users] collection, as [userSchema] shapes it. *)
Record User : Type := mkUser {
  _id : ObjectId;
  name : string;
  email : string;
  dateOfBirth : Date
}.

(** What casting a value to a schema type gives: a cast error, [null]
    (nothing to store), or a value of the type. *)
Inductive Casted (A : Type) : Type :=
| Uncastable
| Nullish
| Value (a : A).
Arguments Uncastable {A}.
Arguments Nullish {A}.
Arguments Value {A} a.

(** A document built by [new User({...})] and not saved yet: it has its
    [_id] already, and each path holds the result of its cast. *)
Record Document : Type := mkDocument {
  doc_id : ObjectId;
  doc_name : Casted string;
  doc_email : Casted string;
  doc_dateOfBirth : Casted Date
}.

(** The errors the storage layer rejects with. *)
Inductive Error : Type :=
| ValidationError (paths : list string)
| CastError (path : string)
| DuplicateKey (index : string)
| StorageError (reason : string).

(** The settlement of a promise. *)
Inductive Outcome (A : Type) : Type :=
| Resolved (a : A)
| Rejected (e : Error).
Arguments Resolved {A} a.
Arguments Rejected {A} e.

(** ** HTTP *)

(** The body of [req] for the create and update routes, after
    [const { name, email, dateOfBirth } = req.body]. *)
Record Body : Type := mkBody {
  body_name : jsval;
  body_email : jsval;
  body_dateOfBirth : jsval
}.

(** The JSON bodies the handlers send. *)
Inductive Json : Type :=
| Message (message : string)
| MessageUser (message : string) (user : User)
| MessageError (message : string) (error : Error)
| Users (users : list User).

Record Response : Type := mkResponse {
  status : nat;
  body : Json
}.

(** [res.status(code).json(b)] *)
Definition json (code : nat) (b : Json) : Response :=
  {| status := code; body := b |}.

Definition message_of (b : Json) : option string :=
  match b with
  | Message m => Some m
  | MessageUser m _ => Some m
  | MessageError m _ => Some m
  | Users _ => None
  end.

Definition user_of (b : Json) : option User :=
  match b with
  | MessageUser _ u => Some u
  | _ => None
  end.

Inductive Request : Type :=
| POST_createUser (b : Body)
| DELETE_deleteUser (id : string)
| PUT_updateUser (id : string) (b : Body)
| GET_users.

(** ** The interface of the Mongoose model *)

(** What the handlers use of [mongoose] and of the model [User], over a
    state [S] that holds whatever the storage layer keeps. *)
Record Model (S : Type) : Type := mkModel {
  User_new : jsval -> jsval -> jsval -> S -> Document * S;
  save : Document -> S -> Outcome User * S;
  findByIdAndDelete : string -> S -> Outcome (option User) * S;
  findByIdAndUpdate :
    string -> jsval -> jsval -> jsval -> S -> Outcome (option User) * S;
  find : S -> Outcome (list User) * S;
  ObjectId_isValid : string -> bool
}.
Arguments User_new {S} _ _ _ _ _.
Arguments save {S} _ _ _.
Arguments findByIdAndDelete {S} _ _ _.
Arguments findByIdAndUpdate {S} _ _ _ _ _ _.
Arguments find {S} _ _.
Arguments ObjectId_isValid {S} _ _.

(** ** The route handlers *)

Section Handlers.

Context {S : Type}.
Variable M : Model S.

(** [app.post('/createUser', ...)], lines 143-161: the [try] block is the
    body, the [catch] block is the [Rejected] branch. *)
Definition createUser (req : Body) (s : S) : Response * S :=
  let name := body_name req in
  let email := body_email req in
  let dateOfBirth := body_dateOfBirth req in
  if falsy name || falsy email || falsy dateOfBirth
  then (json 400 (Message "All fields are required."), s)
  else
    let (newUser, s1) := User_new M name email dateOfBirth s in
    match save M newUser s1 with
    | (Resolved saved, s2) =>
        (json 201 (MessageUser "User created successfully" saved), s2)
    | (Rejected error, s2) =>
        (json 500 (MessageError "Error creating user" error), s2)
    end.

(** [app.delete('/deleteUser/:id', ...)], lines 210-225 *)
Definition deleteUser (id : string) (s : S) : Response * S :=
  match findByIdAndDelete M id s with
  | (Resolved None, s1) => (json 404 (Message "User not found"), s1)
  | (Resolved (Some deletedUser), s1) =>
      (json 200 (MessageUser "User deleted successfully" deletedUser), s1)
  | (Rejected error, s1) =>
      (json 500 (MessageError "Error deleting user" error), s1)
  end.

(** [app.put('/updateUser/:id', ...)], lines 288-315 *)
Definition updateUser (id : string) (req : Body) (s : S) : Response * S :=
  let name := body_name req in
  let email := body_email req in
  let dateOfBirth := body_dateOfBirth req in
  if negb (ObjectId_isValid M id)
  then (json 400 (Message "Invalid user ID format"), s)
  else
    match findByIdAndUpdate M id name email dateOfBirth s with
    | (Resolved None, s1) => (json 404 (Message "User not found"), s1)
    | (Resolved (Some updatedUser), s1) =>
        (json 200 (MessageUser "User updated successfully" updatedUser), s1)
    | (Rejected error, s1) =>
        (json 500 (MessageError "Error updating user" error), s1)
    end.

(** [app.get('/users', ...)], lines 338-346 *)
Definition getUsers (s : S) : Response * S :=
  match find M s with
  | (Resolved users, s1) => (json 200 (Users users), s1)
  | (Rejected error, s1) =>
      (json 500 (MessageError "Error retrieving users" error), s1)
  end.

(** The router, for the four CRUD routes. *)
Definition handle (r : Request) (s : S) : Response * S :=
  match r with
  | POST_createUser b => createUser b s
  | DELETE_deleteUser id => deleteUser id s
  | PUT_updateUser id b => updateUser id b s
  | GET_users => getUsers s
  end.

(** A sequence of requests, handled one after the other. *)
Fixpoint serve (rs : list Request) (s : S) : list Response * S :=
  match rs with
  | [] => ([], s)
  | r :: rs' =>
      let (res, s1) := handle r s in
      let (ress, s2) := serve rs' s1 in
      (res :: ress, s2)
  end.

End Handlers.

(** ** ObjectIds *)

Definition hex_digit (c : ascii) : option N :=
  let n := N_of_ascii c in
  if (48 <=? n)%N && (n <=? 57)%N then Some (n - 48)%N
  else if (97 <=? n)%N && (n <=? 102)%N then Some (n - 87)%N
  else if (65 <=? n)%N && (n <=? 70)%N then Some (n - 55)%N
  else None.

Fixpoint hex_value (s : string) (acc : N) : option N :=
  match s with
  | EmptyString => Some acc
  | String c s' =>
      match hex_digit c with
      | Some d => hex_value s' (16 * acc + d)%N
      | None => None
      end
  end.

(** [new ObjectId(s)] for a string: 24 hexadecimal digits, or an error. *)
Definition ObjectId_ofHex (s : string) : option ObjectId :=
  if (String.length s =? 24)%nat then hex_value s 0%N else None.

(** [mongoose.Types.ObjectId.isValid(s)] for a string. *)
Definition isValid (s : string) : bool :=
  match ObjectId_ofHex s with
  | Some _ => true
  | None => false
  end.

(** ** The schema: casts and validators *)

(** [type: String]: strings are kept, booleans and numbers are printed by
    their [toString] (for a safe integer, its decimal numeral), [null] and
    [undefined] stay empty. *)
Definition castString (v : jsval) : Casted string :=
  match v with
  | JUndefined => Nullish
  | JNull => Nullish
  | JBool true => Value "true"
  | JBool false => Value "false"
  | JNum n => Value (NilZero.string_of_int (Z.to_int (integer n)))
  | JStr s => Value s
  end.

(** The largest time value of a [Date]. *)
Definition max_time : Z := 8640000000000000.

(** [required: true] on a String path: a string that is not empty. *)
Definition required_string (c : Casted string) : bool :=
  match c with
  | Value s => negb (s =? "")
  | _ => false
  end.

(** [required: true] on a Date path: a date. *)
Definition required_date (c : Casted Date) : bool :=
  match c with
  | Value _ => true
  | _ => false
  end.

(** The paths of a document that fail validation. *)
Definition invalid_paths (d : Document) : list string :=
  (if required_string (doc_name d) then [] else ["name"])
  ++ (if required_string (doc_email d) then [] else ["email"])
  ++ (if required_date (doc_dateOfBirth d) then [] else ["dateOfBirth"]).

(** The document to insert, when every path is valid. *)
Definition validated (d : Document) : option User :=
  match doc_name d, doc_email d, doc_dateOfBirth d with
  | Value n, Value e, Value b =>
      if (n =? "") || (e =? "") then None
      else Some (mkUser (doc_id d) n e b)
  | _, _, _ => None
  end.

(** ** The collection *)

(** The [users] collection in insertion order, and the counter from which
    [new User] draws the next ObjectId. *)
Record Store : Type := mkStore {
  collection : list User;
  oid_counter : N
}.

(** What holds of a collection written through the model: the two unique
    indexes, on [_id] and on [email] ([unique: true]); the required
    strings ([required: true]); and generated ids that are new. *)
Record Store_ok (s : Store) : Prop := mkStore_ok {
  ids_unique : NoDup (map _id (collection s));
  emails_unique : NoDup (map email (collection s));
  required_present :
    Forall (fun u => name u <> "" /\ email u <> "") (collection s);
  ids_generated :
    Forall (fun u => (_id u < oid_counter s)%N) (collection s)
}.

Definition has_id (i : ObjectId) (u : User) : bool := (_id u =? i)%N.
Definition has_email (e : string) (u : User) : bool := email u =? e.

(** [insertOne]: refused by a unique index that already has the key. *)
Definition insertOne (u : User) (s : Store) : Outcome User * Store :=
  if existsb (has_id (_id u)) (collection s)
  then (Rejected (DuplicateKey "_id_"), s)
  else if existsb (has_email (email u)) (collection s)
  then (Rejected (DuplicateKey "email_1"), s)
  else (Resolved u,
        {| collection := collection s ++ [u];
           oid_counter := oid_counter s |}).

(** The collection without its first document of id [i]. *)
Fixpoint delete_one (i : ObjectId) (l : list User) : list User :=
  match l with
  | [] => []
  | u :: l' => if has_id i u then l' else u :: delete_one i l'
  end.

(** The collection with its first document of id [i] replaced by [u']. *)
Fixpoint replace_one (i : ObjectId) (u' : User) (l : list User) : list User :=
  match l with
  | [] => []
  | u :: l' => if has_id i u then u' :: l' else u :: replace_one i u' l'
  end.

(** One path of an update document: [None] when the key is [undefined]
    (such keys are dropped from the update), else the cast of its value. *)
Definition update_path {A : Type} (cast : jsval -> Casted A) (v : jsval)
  : option (Casted A) :=
  match v with
  | JUndefined => None
  | _ => Some (cast v)
  end.

Definition cast_failed {A : Type} (p : option (Casted A)) : bool :=
  match p with
  | Some Uncastable => true
  | _ => false
  end.

(** The value a path has after [$set]. *)
Definition set_path {A : Type} (p : option (Casted A)) (old : A) : A :=
  match p with
  | Some (Value a) => a
  | _ => old
  end.

(** [runValidators: true]: the validators of the paths the update sets. *)
Definition update_invalid_paths
  (n e : option (Casted string)) (b : option (Casted Date)) : list string :=
  (match n with
   | Some c => if required_string c then [] else ["name"]
   | None => []
   end)
  ++ (match e with
      | Some c => if required_string c then [] else ["email"]
      | None => []
      end)
  ++ (match b with
      | Some c => if required_date c then [] else ["dateOfBirth"]
      | None => []
      end).

Section Mongoose.

(** The time value of a non-empty string cast to a Date, [None] when it
    is not a date.  What [Date] accepts beyond the ISO formats depends on
    the JavaScript engine, so it is left open. *)
Variable Date_ofString : string -> option Date.

(** [type: Date] *)
Definition castDate (v : jsval) : Casted Date :=
  match v with
  | JUndefined => Nullish
  | JNull => Nullish
  | JBool _ => Uncastable
  | JNum n =>
      if (Z.abs (integer n) <=? max_time)%Z then Value (integer n)
      else Uncastable
  | JStr s =>
      if s =? "" then Nullish
      else match Date_ofString s with
           | Some t => Value t
           | None => Uncastable
           end
  end.

(** [new User({ name, email, dateOfBirth })] *)
Definition new_User (name' email' dateOfBirth' : jsval) (s : Store)
  : Document * Store :=
  ({| doc_id := oid_counter s;
      doc_name := castString name';
      doc_email := castString email';
      doc_dateOfBirth := castDate dateOfBirth' |},
   {| collection := collection s;
      oid_counter := N.succ (oid_counter s) |}).

(** [doc.save()] of a new document: validation, then the insertion. *)
Definition Document_save (d : Document) (s : Store) : Outcome User * Store :=
  match validated d with
  | None => (Rejected (ValidationError (invalid_paths d)), s)
  | Some u => insertOne u s
  end.

(** [User.findByIdAndDelete(id)] *)
Definition User_findByIdAndDelete (id : string) (s : Store)
  : Outcome (option User) * Store :=
  match ObjectId_ofHex id with
  | None => (Rejected (CastError "_id"), s)
  | Some i =>
      match List.find (has_id i) (collection s) with
      | None => (Resolved None, s)
      | Some u =>
          (Resolved (Some u),
           {| collection := delete_one i (collection s);
              oid_counter := oid_counter s |})
      end
  end.

(** The update document [{ name, email, dateOfBirth }] cast to the
    schema and run through the validators, both before the query is
    sent: the error it is rejected with, if any. *)
Definition checkUpdate (name' email' dateOfBirth' : jsval) : option Error :=
  let n := update_path castString name' in
  let e := update_path castString email' in
  let b := update_path castDate dateOfBirth' in
  if cast_failed n then Some (CastError "name")
  else if cast_failed e then Some (CastError "email")
  else if cast_failed b then Some (CastError "dateOfBirth")
  else
    match update_invalid_paths n e b with
    | [] => None
    | paths => Some (ValidationError paths)
    end.

(** The document [u] after [$set] of the paths the update has. *)
Definition applyUpdate (name' email' dateOfBirth' : jsval) (u : User) : User :=
  {| _id := _id u;
     name := set_path (update_path castString name') (name u);
     email := set_path (update_path castString email') (email u);
     dateOfBirth :=
       set_path (update_path castDate dateOfBirth') (dateOfBirth u) |}.

(** [User.findByIdAndUpdate(id, { name, email, dateOfBirth },
    { new: true, runValidators: true })] *)
Definition User_findByIdAndUpdate
  (id : string) (name' email' dateOfBirth' : jsval) (s : Store)
  : Outcome (option User) * Store :=
  match ObjectId_ofHex id with
  | None => (Rejected (CastError "_id"), s)
  | Some i =>
      match checkUpdate name' email' dateOfBirth' with
      | Some error => (Rejected error, s)
      | None =>
          match List.find (has_id i) (collection s) with
          | None => (Resolved None, s)
          | Some u =>
              let u' := applyUpdate name' email' dateOfBirth' u in
              if negb (email u' =? email u)
                 && existsb (has_email (email u')) (collection s)
              then (Rejected (DuplicateKey "email_1"), s)
              else
                (Resolved (Some u'),
                 {| collection := replace_one i u' (collection s);
                    oid_counter := oid_counter s |})
          end
      end
  end.

(** [User.find()] *)
Definition User_find (s : Store) : Outcome (list User) * Store :=
  (Resolved (collection s), s).

(** The model [User] of [index.js], with the database reachable. *)
Definition UserModel : Model Store :=
  {| User_new := new_User;
     save := Document_save;
     findByIdAndDelete := User_findByIdAndDelete;
     findByIdAndUpdate := User_findByIdAndUpdate;
     find := User_find;
     ObjectId_isValid := isValid |}.

(** The application: the handlers over the model. *)
Definition app : Request -> Store -> Response * Store := handle UserModel.

End Mongoose.

(** ** A concrete engine, for running the model *)

Definition digit (c : ascii) : option Z :=
  let n := N_of_ascii c in
  if (48 <=? n)%N && (n <=? 57)%N then Some (Z.of_N (n - 48)) else None.

Fixpoint digits (s : string) (acc : Z) : option Z :=
  match s with
  | EmptyString => Some acc
  | String c s' =>
      match digit c with
      | Some d => digits s' (10 * acc + d)%Z
      | None => None
      end
  end.

(** Days from 1970-01-01 to the civil date [y]-[m]-[d]. *)
Definition days_from_civil (y m d : Z) : Z :=
  let y' := (if m <=? 2 then y - 1 else y)%Z in
  let era := (y' / 400)%Z in
  let yoe := (y' - era * 400)%Z in
  let mp := ((m + 9) mod 12)%Z in
  let doy := ((153 * mp + 2) / 5 + d - 1)%Z in
  let doe := (yoe * 365 + yoe / 4 - yoe / 100 + doy)%Z in
  (era * 146097 + doe - 719468)%Z.

(** The date-only ISO form [YYYY-MM-DD], read as UTC midnight; any other
    text is not a date for this engine. *)
Definition Date_iso (s : string) : option Date :=
  if negb (String.length s =? 10)%nat then None
  else
    match digits (substring 0 4 s) 0%Z,
          digits (substring 5 2 s) 0%Z,
          digits (substring 8 2 s) 0%Z with
    | Some y, Some m, Some d =>
        if (substring 4 1 s =? "-") && (substring 7 1 s =? "-")
           && (1 <=? m)%Z && (m <=? 12)%Z && (1 <=? d)%Z && (d <=? 31)%Z
        then Some (days_from_civil y m d * 86400000)%Z
        else None
    | _, _, _ => None
    end.

Definition empty_store : Store := {| collection := []; oid_counter := 0 |}.

(** ** Vocabulary of the properties *)

(** The test of [createUser]: [!name || !email || !dateOfBirth]. *)
Definition some_field_falsy (b : Body) : bool :=
  falsy (body_name b) || falsy (body_email b) || falsy (body_dateOfBirth b).

(** What a storage call hands back to a handler. *)
Inductive Affected : Type :=
| NoRecord
| Record (u : User)
| Records (l : list User).

Section Outcomes.

Context {S : Type}.
Variable M : Model S.

(** The requests a handler answers without calling the storage layer. *)
Definition bad_request (r : Request) : bool :=
  match r with
  | POST_createUser b => some_field_falsy b
  | PUT_updateUser id _ => negb (ObjectId_isValid M id)
  | _ => false
  end.

(** How the storage call of a request settles. *)
Definition storage_call (r : Request) (s : S) : Outcome Affected :=
  match r with
  | POST_createUser b =>
      let (d, s1) :=
        User_new M (body_name b) (body_email b) (body_dateOfBirth b) s in
      match fst (save M d s1) with
      | Resolved u => Resolved (Record u)
      | Rejected e => Rejected e
      end
  | DELETE_deleteUser id =>
      match fst (findByIdAndDelete M id s) with
      | Resolved (Some u) => Resolved (Record u)
      | Resolved None => Resolved NoRecord
      | Rejected e => Rejected e
      end
  | PUT_updateUser id b =>
      match
        fst (findByIdAndUpdate M id (body_name b) (body_email b)
               (body_dateOfBirth b) s)
      with
      | Resolved (Some u) => Resolved (Record u)
      | Resolved None => Resolved NoRecord
      | Rejected e => Rejected e
      end
  | GET_users =>
      match fst (find M s) with
      | Resolved l => Resolved (Records l)
      | Rejected e => Rejected e
      end
  end.

Definition success_code (r : Request) : nat :=
  match r with
  | POST_createUser _ => 201
  | _ => 200
  end.

End Outcomes.

(** A record holds what a body submitted: each field of the record is
    the cast of the field of the body. *)
Definition submitted (Date_ofString : string -> option Date)
  (b : Body) (u : User) : Prop :=
  castString (body_name b) = Value (name u)
  /\ castString (body_email b) = Value (email u)
  /\ castDate Date_ofString (body_dateOfBirth b) = Value (dateOfBirth u).

(** A record matches what a body submitted, said of the values and not
    through the casts of the model: a text field holds the submitted
    string itself (or, for a boolean or a number, what [String] prints of
    it); the date of birth is the date the submitted string denotes for
    the engine (or, for a number, the date of that time value). *)
Definition text_recorded (v : jsval) (x : string) : Prop :=
  match v with
  | JStr s => x = s
  | JBool b => x = if b then "true" else "false"
  | JNum n => x = NilZero.string_of_int (Z.to_int (integer n))
  | _ => False
  end.

Definition date_recorded (Date_ofString : string -> option Date)
  (v : jsval) (t : Date) : Prop :=
  match v with
  | JStr s => s <> "" /\ Date_ofString s = Some t
  | JNum n => t = integer n
  | _ => False
  end.

Definition recorded (Date_ofString : string -> option Date)
  (b : Body) (u : User) : Prop :=
  text_recorded (body_name b) (name u)
  /\ text_recorded (body_email b) (email u)
  /\ date_recorded Date_ofString (body_dateOfBirth b) (dateOfBirth u).

(** The error the update document of a body is rejected with, if any,
    and the record the update of a body makes of a stored one. *)
Definition update_error (Date_ofString : string -> option Date) (b : Body)
  : option Error :=
  checkUpdate Date_ofString (body_name b) (body_email b) (body_dateOfBirth b).

Definition updated (Date_ofString : string -> option Date) (b : Body)
  (u : User) : User :=
  applyUpdate Date_ofString (body_name b) (body_email b) (body_dateOfBirth b) u.

(** The ids of the collection, in order. *)
Definition ids (s : Store) : list ObjectId := map _id (collection s).

(** What a request may do to the ids of the collection: any request may
    leave them as they are; a create may add one that was not there, at
    the end; a delete may drop the one it names. *)
Inductive ids_step : Request -> list ObjectId -> list ObjectId -> Prop :=
| ids_kept (r : Request) (l : list ObjectId) : ids_step r l l
| ids_created (b : Body) (l : list ObjectId) (i : ObjectId) :
    ~ In i l -> ids_step (POST_createUser b) l (l ++ [i])
| ids_deleted (id : string) (i : ObjectId) (l1 l2 : list ObjectId) :
    ObjectId_ofHex id = Some i ->
    ids_step (DELETE_deleteUser id) (l1 ++ i :: l2) (l1 ++ l2).

Inductive ids_trace : list Request -> list ObjectId -> list ObjectId -> Prop :=
| ids_trace_nil (l : list ObjectId) : ids_trace [] l l
| ids_trace_cons (r : Request) (rs : list Request) (l l1 l2 : list ObjectId) :
    ids_step r l l1 -> ids_trace rs l1 l2 -> ids_trace (r :: rs) l l2.

(** Stores and requests to run the model on. *)
Definition john : Body :=
  mkBody (JStr "John Doe") (JStr "johndoe@example.com") (JStr "1990-01-01").

Definition jane : Body :=
  mkBody (JStr "Jane Doe") (JStr "janedoe@example.com") (JStr "1992-05-15").

Definition two_users : Store :=
  {| collection :=
       [ mkUser 0%N "John Doe" "johndoe@example.com" 631152000000%Z;
         mkUser 1%N "Jane Doe" "janedoe@example.com" 705888000000%Z ];
     oid_counter := 2%N |}.

Definition id0 : string := "000000000000000000000000".
Definition id_unknown : string := "64f74c8e524a1c0012a34567".

(** Counting over a run: the answers 201, and the deletes answered 200. *)
Definition created (res : Response) : nat :=
  if (status res =? 201)%nat then 1 else 0.

Definition deleted (r : Request) (res : Response) : nat :=
  match r with
  | DELETE_deleteUser _ => if (status res =? 200)%nat then 1 else 0
  | _ => 0
  end.

Fixpoint count_created (ress : list Response) : nat :=
  match ress with
  | [] => 0
  | res :: ress' => created res + count_created ress'
  end.

Fixpoint count_deleted (rs : list Request) (ress : list Response) : nat :=
  match rs, ress with
  | r :: rs', res :: ress' => deleted r res + count_deleted rs' ress'
  | _, _ => 0
  end.

Definition no_fields : Body := mkBody JUndefined JUndefined JUndefined.

Definition jim : Body :=
  mkBody (JStr "Jim Doe") (JStr "jimdoe@example.com") (JStr "2001-02-03").

Definition id2 : string := "000000000000000000000002".

(** Closes [Store_ok] on a collection that is written out. *)
Ltac solve_Store_ok :=
  constructor; simpl;
  [ repeat constructor; simpl; intuition discriminate
  | repeat constructor; simpl; intuition discriminate
  | repeat constructor; simpl; discriminate
  | repeat constructor; simpl; lia ].

(** * Properties *)

(** ** What the handlers decide on their own *)

Section HandlerFacts.

Context {S : Type}.
Variable M : Model S.

Lemma createUser_rejects (b : Body) (s : S) :
  some_field_falsy b = true ->
  createUser M b s = (json 400 (Message "All fields are required."), s).
Proof.
  unfold some_field_falsy, createUser. intros H. cbv zeta.
  now rewrite H.
Qed.

Lemma createUser_proceeds (b : Body) (s : S) :
  some_field_falsy b = false ->
  createUser M b s =
    let (newUser, s1) :=
      User_new M (body_name b) (body_email b) (body_dateOfBirth b) s in
    match save M newUser s1 with
    | (Resolved saved, s2) =>
        (json 201 (MessageUser "User created successfully" saved), s2)
    | (Rejected error, s2) =>
        (json 500 (MessageError "Error creating user" error), s2)
    end.
Proof.
  unfold some_field_falsy, createUser. intros H. cbv zeta.
  now rewrite H.
Qed.

Lemma createUser_status (b : Body) (s : S) :
  status (fst (createUser M b s)) = 400 <-> some_field_falsy b = true.
Proof.
  destruct (some_field_falsy b) eqn:F.
  - rewrite (createUser_rejects _ _ F). simpl. tauto.
  - rewrite (createUser_proceeds _ _ F).
    destruct (User_new M _ _ _ s) as [d s1].
    destruct (save M d s1) as [[u|e] s2]; simpl; split; discriminate.
Qed.

Lemma updateUser_rejects (id : string) (b : Body) (s : S) :
  ObjectId_isValid M id = false ->
  updateUser M id b s = (json 400 (Message "Invalid user ID format"), s).
Proof.
  unfold updateUser. intros H. cbv zeta. now rewrite H.
Qed.

Lemma updateUser_proceeds (id : string) (b : Body) (s : S) :
  ObjectId_isValid M id = true ->
  updateUser M id b s =
    match
      findByIdAndUpdate M id (body_name b) (body_email b)
        (body_dateOfBirth b) s
    with
    | (Resolved None, s1) => (json 404 (Message "User not found"), s1)
    | (Resolved (Some updatedUser), s1) =>
        (json 200 (MessageUser "User updated successfully" updatedUser), s1)
    | (Rejected error, s1) =>
        (json 500 (MessageError "Error updating user" error), s1)
    end.
Proof.
  unfold updateUser. intros H. cbv zeta. now rewrite H.
Qed.

(** The table the handlers follow, read off their branches.  Whatever the
    storage layer does, every response of the four handlers is one of:
    400 with a message when the request is answered without a storage
    call (a falsy field on create, a malformed identifier on update);
    otherwise 500 with a message and the error when the storage call is
    rejected, 404 with a message when it finds no record, and on success
    201 (create) or 200 (delete, update, list) with the record, or the
    records, the storage call returned. *)
Lemma status_codes_fixed (r : Request) (s : S) :
  let res := fst (handle M r s) in
  In (status res) [200; 201; 400; 404; 500]
  /\ if bad_request M r
     then status res = 400
          /\ exists m, body res = Message m /\ m <> ""
     else
       match storage_call M r s with
       | Rejected e =>
           status res = 500
           /\ exists m, body res = MessageError m e /\ m <> ""
       | Resolved NoRecord =>
           status res = 404
           /\ exists m, body res = Message m /\ m <> ""
       | Resolved (Record u) =>
           status res = success_code r
           /\ exists m, body res = MessageUser m u /\ m <> ""
       | Resolved (Records l) =>
           status res = 200 /\ body res = Users l
       end.
Proof.
  destruct r as [b | id | id b | ]; cbn [handle bad_request storage_call].
  - destruct (some_field_falsy b) eqn:F.
    + rewrite (createUser_rejects _ _ F). cbn.
      split; [tauto |].
      split; [reflexivity | eexists; split; [reflexivity | discriminate]].
    + rewrite (createUser_proceeds _ _ F).
      destruct (User_new M _ _ _ s) as [d s1].
      destruct (save M d s1) as [[u | e] s2]; cbn;
        (split; [tauto |]);
        (split; [reflexivity | eexists; split; [reflexivity | discriminate]]).
  - unfold deleteUser.
    destruct (findByIdAndDelete M id s) as [[[u | ] | e] s1]; cbn;
      (split; [tauto |]);
      (split; [reflexivity | eexists; split; [reflexivity | discriminate]]).
  - destruct (ObjectId_isValid M id) eqn:V; cbn [negb].
    + rewrite (updateUser_proceeds _ _ _ V).
      destruct (findByIdAndUpdate M id _ _ _ s) as [[[u | ] | e] s1]; cbn;
        (split; [tauto |]);
        (split; [reflexivity | eexists; split; [reflexivity | discriminate]]).
    + rewrite (updateUser_rejects _ _ _ V). cbn.
      split; [tauto |].
      split; [reflexivity | eexists; split; [reflexivity | discriminate]].
  - unfold getUsers.
    destruct (find M s) as [[l | e] s1]; cbn.
    + split; [tauto | split; reflexivity].
    + split; [tauto |].
      split; [reflexivity | eexists; split; [reflexivity | discriminate]].
Qed.

End HandlerFacts.

(** C5.  A create request that lacks [name], [email] or [dateOfBirth] is
    answered 400, and the state of the storage layer is the one the
    request found: nothing is persisted, whatever the storage layer is. *)
Theorem createUser_missing_field
  {S : Type} (M : Model S) (b : Body) (s : S) :
  body_name b = JUndefined \/ body_email b = JUndefined
  \/ body_dateOfBirth b = JUndefined ->
  createUser M b s = (json 400 (Message "All fields are required."), s).
Proof.
  intros H. apply createUser_rejects. unfold some_field_falsy.
  destruct H as [H | [H | H]]; rewrite H; simpl;
    rewrite ?orb_true_r; reflexivity.
Qed.

(** C10.  The create handler answers 400 exactly when one of the three
    fields is falsy; the empty string, [null] and a missing key are all
    falsy; and on a falsy field the answer is 'All fields are required.'
    with the state untouched for every storage layer and every state: the
    test is decided before any storage access. *)
Theorem createUser_400_iff_falsy (b : Body) :
  (forall (S : Type) (M : Model S) (s : S),
      status (fst (createUser M b s)) = 400 <-> some_field_falsy b = true)
  /\ (falsy (JStr "") = true /\ falsy JNull = true /\ falsy JUndefined = true)
  /\ (some_field_falsy b = true ->
      forall (S : Type) (M : Model S) (s : S),
        createUser M b s =
          (json 400 (Message "All fields are required."), s)).
Proof.
  split; [| split].
  - intros S M s. apply createUser_status.
  - repeat split.
  - intros F S M s. now apply createUser_rejects.
Qed.

(** ** The collection *)

Lemma existsb_has_id (i : ObjectId) (l : list User) :
  existsb (has_id i) l = true <-> In i (map _id l).
Proof.
  rewrite existsb_exists, in_map_iff. unfold has_id.
  split; intros [u [H1 H2]]; exists u.
  - apply N.eqb_eq in H2. tauto.
  - rewrite N.eqb_eq. tauto.
Qed.

Lemma existsb_has_email (e : string) (l : list User) :
  existsb (has_email e) l = true <-> In e (map email l).
Proof.
  rewrite existsb_exists, in_map_iff. unfold has_email.
  split; intros [u [H1 H2]]; exists u.
  - apply String.eqb_eq in H2. tauto.
  - rewrite String.eqb_eq. tauto.
Qed.

Lemma existsb_false_iff {A : Type} (f : A -> bool) (l : list A) (P : Prop) :
  (existsb f l = true <-> P) -> ~ P -> existsb f l = false.
Proof.
  intros H N. destruct (existsb f l); [exfalso; tauto | reflexivity].
Qed.

Lemma find_has_id_some (i : ObjectId) (l : list User) (u : User) :
  List.find (has_id i) l = Some u -> In u l /\ _id u = i.
Proof.
  intros H. apply find_some in H. unfold has_id in H.
  rewrite N.eqb_eq in H. exact H.
Qed.

Lemma find_has_id_none (i : ObjectId) (l : list User) :
  List.find (has_id i) l = None <-> ~ In i (map _id l).
Proof.
  induction l as [| v l IH]; simpl.
  - tauto.
  - unfold has_id at 1. destruct (N.eqb_spec (_id v) i) as [E | E].
    + split; [discriminate | intros H; exfalso; tauto].
    + rewrite IH. tauto.
Qed.

Lemma find_has_id_unique (l : list User) (u : User) :
  NoDup (map _id l) -> In u l -> List.find (has_id (_id u)) l = Some u.
Proof.
  induction l as [| v l IH]; simpl; intros ND HIn.
  - contradiction.
  - inversion ND as [| x xs Hx ND']; subst.
    unfold has_id at 1. destruct (N.eqb_spec (_id v) (_id u)) as [E | E].
    + destruct HIn as [-> | HIn]; [reflexivity |].
      exfalso. apply Hx. rewrite E. now apply in_map.
    + destruct HIn as [-> | HIn]; [congruence |]. now apply IH.
Qed.

Lemma replace_one_ids (i : ObjectId) (u' : User) (l : list User) :
  _id u' = i -> map _id (replace_one i u' l) = map _id l.
Proof.
  intros E. induction l as [| v l IH]; simpl; [reflexivity |].
  unfold has_id at 1. destruct (N.eqb_spec (_id v) i) as [E' | E']; simpl.
  - congruence.
  - now rewrite IH.
Qed.

Lemma replace_one_In (i : ObjectId) (u' : User) (l : list User) :
  In i (map _id l) -> In u' (replace_one i u' l).
Proof.
  induction l as [| v l IH]; simpl; [tauto |].
  unfold has_id at 1. destruct (N.eqb_spec (_id v) i) as [E | E]; simpl.
  - auto.
  - intros [H | H]; [congruence | auto].
Qed.

Lemma replace_one_incl (i : ObjectId) (u' : User) (l : list User) (w : User) :
  In w (replace_one i u' l) -> w = u' \/ In w l.
Proof.
  induction l as [| v l IH]; simpl; [tauto |].
  destruct (has_id i v); simpl; intros [H | H]; auto.
  destruct (IH H); auto.
Qed.

Lemma replace_one_emails (i : ObjectId) (u u' : User) (l : list User) :
  NoDup (map _id l) -> NoDup (map email l) ->
  In u l -> _id u = i ->
  (email u' = email u \/ ~ In (email u') (map email l)) ->
  NoDup (map email (replace_one i u' l)).
Proof.
  intros NDi NDe HIn Hid Hnew. revert NDi NDe HIn.
  induction l as [| v l IH]; simpl; intros NDi NDe HIn; [constructor |].
  inversion NDi as [| x xs Hx NDi']; subst xs x.
  inversion NDe as [| y ys Hy NDe']; subst ys y.
  unfold has_id at 1. destruct (N.eqb_spec (_id v) i) as [E | E]; simpl.
  - assert (v = u) as ->.
    { destruct HIn as [H | H]; [exact H |].
      exfalso. apply Hx. rewrite E, <- Hid. now apply in_map. }
    constructor; [| exact NDe'].
    destruct Hnew as [H | H]; [now rewrite H | simpl in H; tauto].
  - destruct HIn as [H | HIn]; [subst v; congruence |].
    constructor.
    + intros Hv. apply in_map_iff in Hv. destruct Hv as [w [Hw1 Hw2]].
      apply replace_one_incl in Hw2. destruct Hw2 as [-> | Hw2].
      * destruct Hnew as [H | H].
        -- apply Hy. rewrite <- Hw1, H. now apply in_map.
        -- apply H. simpl. auto.
      * apply Hy. rewrite <- Hw1. now apply in_map.
    + apply IH; try assumption.
      destruct Hnew as [H | H]; [auto | right; simpl in H; tauto].
Qed.

Lemma delete_one_incl (i : ObjectId) (l : list User) (w : User) :
  In w (delete_one i l) -> In w l.
Proof.
  induction l as [| v l IH]; simpl; [tauto |].
  destruct (has_id i v); simpl; intros H; [auto | destruct H; auto].
Qed.

Lemma delete_one_NoDup {A : Type} (f : User -> A) (i : ObjectId) (l : list User) :
  NoDup (map f l) -> NoDup (map f (delete_one i l)).
Proof.
  induction l as [| v l IH]; simpl; intros ND; [constructor |].
  inversion ND as [| x xs Hx ND']; subst.
  destruct (has_id i v); simpl; [assumption |].
  constructor; [| auto].
  intros H. apply Hx. apply in_map_iff in H. destruct H as [w [H1 H2]].
  rewrite <- H1. apply in_map. eapply delete_one_incl; eassumption.
Qed.

Lemma delete_one_gone (i : ObjectId) (l : list User) :
  NoDup (map _id l) -> ~ In i (map _id (delete_one i l)).
Proof.
  induction l as [| v l IH]; simpl; intros ND; [tauto |].
  inversion ND as [| x xs Hx ND']; subst.
  unfold has_id at 1. destruct (N.eqb_spec (_id v) i) as [E | E]; simpl.
  - now rewrite <- E.
  - intros [H | H]; [congruence | now apply IH].
Qed.

Lemma delete_one_others (i : ObjectId) (l : list User) (w : User) :
  In w l -> _id w <> i -> In w (delete_one i l).
Proof.
  induction l as [| v l IH]; simpl; [tauto |].
  unfold has_id at 1. destruct (N.eqb_spec (_id v) i) as [E | E]; simpl.
  - intros [H | H] N; [congruence | assumption].
  - intros [H | H] N; auto.
Qed.

(** ** The schema *)

Lemma castString_JStr (x : string) : castString (JStr x) = Value x.
Proof. reflexivity. Qed.

Lemma string_of_int_nonempty (i : Decimal.int) :
  NilZero.string_of_int i <> "".
Proof.
  destruct i as [d | d]; simpl; [| discriminate].
  destruct d; simpl; discriminate.
Qed.

Lemma castString_truthy (v : jsval) (x : string) :
  truthy v = true -> castString v = Value x -> x <> "".
Proof.
  destruct v as [ | | [|] | n | y]; simpl; intros T C;
    try discriminate; injection C as <-; try discriminate.
  - apply string_of_int_nonempty.
  - intros ->. discriminate.
Qed.

Lemma validated_some (d : Document) (u : User) :
  validated d = Some u ->
  _id u = doc_id d
  /\ doc_name d = Value (name u)
  /\ doc_email d = Value (email u)
  /\ doc_dateOfBirth d = Value (dateOfBirth u)
  /\ name u <> "" /\ email u <> "".
Proof.
  unfold validated.
  destruct (doc_name d) as [ | | n]; try discriminate.
  destruct (doc_email d) as [ | | e]; try discriminate.
  destruct (doc_dateOfBirth d) as [ | | b]; try discriminate.
  destruct (String.eqb_spec n ""); simpl; [discriminate |].
  destruct (String.eqb_spec e ""); simpl; [discriminate |].
  intros H. injection H as <-. simpl. tauto.
Qed.

Lemma validated_none (d : Document) :
  validated d = None <-> invalid_paths d <> [].
Proof.
  unfold validated, invalid_paths, required_string, required_date.
  destruct (doc_name d) as [ | | n], (doc_email d) as [ | | e],
    (doc_dateOfBirth d) as [ | | b];
    repeat match goal with
      | |- context [?x =? ""] => destruct (x =? "")
      end;
    simpl; split; try discriminate; try reflexivity;
    intros H; now elim H.
Qed.

Lemma validated_values (i : ObjectId) (n e : string) (b : Date) :
  n <> "" -> e <> "" ->
  validated (mkDocument i (Value n) (Value e) (Value b))
  = Some (mkUser i n e b).
Proof.
  intros Hn He. unfold validated. simpl.
  apply String.eqb_neq in Hn. apply String.eqb_neq in He.
  now rewrite Hn, He.
Qed.

Lemma required_string_value (c : Casted string) :
  required_string c = true -> exists x, c = Value x /\ x <> "".
Proof.
  destruct c as [ | | x]; simpl; try discriminate.
  destruct (String.eqb_spec x ""); simpl; [discriminate |]. eauto.
Qed.

Lemma required_date_value (c : Casted Date) :
  required_date c = true -> exists d, c = Value d.
Proof.
  destruct c as [ | | d]; simpl; try discriminate. eauto.
Qed.

Lemma update_path_required {A : Type}
  (cast : jsval -> Casted A) (req : Casted A -> bool) (v : jsval) (x : string) :
  match update_path cast v with
  | Some c => if req c then [] else [x]
  | None => []
  end = [] ->
  v = JUndefined \/ req (cast v) = true.
Proof.
  unfold update_path.
  destruct v; auto; right; destruct (req (cast _)); (reflexivity || discriminate).
Qed.

Lemma set_path_cast {A : Type}
  (cast : jsval -> Casted A) (v : jsval) (x old : A) :
  cast JUndefined = Nullish ->
  cast v = Value x ->
  set_path (update_path cast v) old = x.
Proof.
  intros U C. destruct v; simpl; rewrite ?C; try reflexivity.
  rewrite U in C. discriminate.
Qed.

Lemma NoDup_snoc {A : Type} (l : list A) (x : A) :
  NoDup l -> ~ In x l -> NoDup (l ++ [x]).
Proof.
  induction l as [| a l IH]; simpl; intros ND N.
  - constructor; [tauto | constructor].
  - inversion ND as [| y ys Hy ND']; subst.
    constructor.
    + rewrite in_app_iff. simpl. intros [H | [H | []]]; [tauto | subst; tauto].
    + apply IH; tauto.
Qed.

Lemma same_id_same_user (l : list User) (u v : User) :
  NoDup (map _id l) -> In u l -> In v l -> _id v = _id u -> v = u.
Proof.
  intros ND Hu Hv E.
  pose proof (find_has_id_unique l u ND Hu) as Fu.
  pose proof (find_has_id_unique l v ND Hv) as Fv.
  rewrite E in Fv. congruence.
Qed.

Lemma delete_one_split (i : ObjectId) (l : list User) (u : User) :
  List.find (has_id i) l = Some u ->
  exists l1 l2,
    map _id l = (l1 ++ i :: l2)%list
    /\ map _id (delete_one i l) = (l1 ++ l2)%list.
Proof.
  induction l as [| v l IH]; simpl; [discriminate |].
  unfold has_id at 1 3. destruct (N.eqb_spec (_id v) i) as [E | E].
  - intros _. exists [], (map _id l). simpl. now rewrite E.
  - intros F. destruct (IH F) as (l1 & l2 & H1 & H2).
    exists (_id v :: l1), l2. simpl. now rewrite H1, H2.
Qed.

(** ** Runs *)

Lemma serve_cons {S : Type} (M : Model S) (r : Request) (rs : list Request)
  (s : S) :
  serve M (r :: rs) s =
    (fst (handle M r s) :: fst (serve M rs (snd (handle M r s))),
     snd (serve M rs (snd (handle M r s)))).
Proof.
  simpl. destruct (handle M r s) as [res s1]. simpl.
  destruct (serve M rs s1) as [ress s2]. reflexivity.
Qed.

(** ** The model *)

Section ModelFacts.

Variable Date_ofString : string -> option Date.


(** Every run of the create handler: either no document is written, or
    the answer is 201 with a new document at the end of the collection,
    holding the submitted fields under the id drawn from the counter. *)
Lemma createUser_cases (b : Body) (s : Store) :
  (status (fst (createUser (UserModel Date_ofString) b s)) <> 201
   /\ collection (snd (createUser (UserModel Date_ofString) b s)) = collection s
   /\ (oid_counter s <= oid_counter (snd (createUser (UserModel Date_ofString) b s)))%N)
  \/ (exists u,
        createUser (UserModel Date_ofString) b s =
          (json 201 (MessageUser "User created successfully" u),
           {| collection := collection s ++ [u];
              oid_counter := N.succ (oid_counter s) |})
        /\ _id u = oid_counter s
        /\ submitted Date_ofString b u
        /\ name u <> "" /\ email u <> ""
        /\ ~ In (_id u) (map _id (collection s))
        /\ ~ In (email u) (map email (collection s))).
Proof.
  destruct (some_field_falsy b) eqn:F.
  - left. rewrite (createUser_rejects _ _ _ F). simpl.
    repeat split; [discriminate | lia].
  - rewrite (createUser_proceeds _ _ _ F). simpl.
    unfold Document_save.
    destruct (validated _) as [u |] eqn:V.
    + apply validated_some in V. simpl in V.
      destruct V as (Vi & Vn & Ve & Vb & Nn & Ne).
      unfold insertOne. simpl.
      destruct (existsb (has_id (_id u)) (collection s)) eqn:Xi.
      { left. simpl. repeat split; [discriminate | lia]. }
      destruct (existsb (has_email (email u)) (collection s)) eqn:Xe.
      { left. simpl. repeat split; [discriminate | lia]. }
      right. exists u. repeat split; try assumption.
      * intros H. apply existsb_has_id in H. congruence.
      * intros H. apply existsb_has_email in H. congruence.
    + left. simpl. repeat split; [discriminate | lia].
Qed.

Lemma fresh_id (s : Store) :
  Store_ok s -> ~ In (oid_counter s) (map _id (collection s)).
Proof.
  intros [_ _ _ G] H. apply in_map_iff in H. destruct H as [v [H1 H2]].
  rewrite Forall_forall in G. specialize (G v H2). lia.
Qed.

Lemma all_truthy (b : Body) :
  truthy (body_name b) = true -> truthy (body_email b) = true ->
  truthy (body_dateOfBirth b) = true -> some_field_falsy b = false.
Proof.
  unfold some_field_falsy, falsy. now intros -> -> ->.
Qed.

(** C2, amended.  A create request whose three fields are truthy and
    cast to the types of the schema, and whose email no stored user has,
    is answered 201 with the record that is persisted: it holds the
    submitted name, email and date of birth, under an id drawn from the
    generator that no stored record has. *)
Theorem createUser_created
  (b : Body) (s : Store) (n e : string) (d : Date) :
  Store_ok s ->
  truthy (body_name b) = true ->
  truthy (body_email b) = true ->
  truthy (body_dateOfBirth b) = true ->
  castString (body_name b) = Value n ->
  castString (body_email b) = Value e ->
  castDate Date_ofString (body_dateOfBirth b) = Value d ->
  ~ In e (map email (collection s)) ->
  let u := mkUser (oid_counter s) n e d in
  app Date_ofString (POST_createUser b) s =
    (json 201 (MessageUser "User created successfully" u),
     {| collection := collection s ++ [u];
        oid_counter := N.succ (oid_counter s) |})
  /\ ~ In (_id u) (map _id (collection s)).
Proof.
  intros OK Tn Te Td Cn Ce Cd New u.
  split; [| now apply fresh_id].
  unfold app. simpl.
  rewrite (createUser_proceeds _ _ _ (all_truthy _ Tn Te Td)). simpl.
  unfold Document_save. rewrite Cn, Ce, Cd.
  rewrite validated_values;
    [| exact (castString_truthy _ _ Tn Cn)
     | exact (castString_truthy _ _ Te Ce)].
  unfold insertOne. simpl.
  rewrite (existsb_false_iff _ _ _ (existsb_has_id _ _) (fresh_id _ OK)).
  rewrite (existsb_false_iff _ _ _ (existsb_has_email _ _) New).
  reflexivity.
Qed.

(** A create request that carries the email of a stored user, with a
    name and a date of birth that are truthy, fails: the answer is 500
    'Error creating user', the collection is the one the request found,
    and the stored user is still in what GET /users returns.  The error
    reported is the duplicate-key error of the unique index on [email]
    whenever the name and the date of birth are of the types of the
    schema. *)
Lemma createUser_stored_email (b : Body) (s : Store) (u : User) :
  Store_ok s ->
  In u (collection s) ->
  body_email b = JStr (email u) ->
  truthy (body_name b) = true ->
  truthy (body_dateOfBirth b) = true ->
  let res := fst (app Date_ofString (POST_createUser b) s) in
  let s' := snd (app Date_ofString (POST_createUser b) s) in
  status res = 500
  /\ message_of (body res) = Some "Error creating user"
  /\ collection s' = collection s
  /\ (exists l, fst (app Date_ofString GET_users s') = json 200 (Users l) /\ In u l)
  /\ (forall n d,
        castString (body_name b) = Value n ->
        castDate Date_ofString (body_dateOfBirth b) = Value d ->
        body res = MessageError "Error creating user"
                     (DuplicateKey "email_1")).
Proof.
  intros OK HIn He Tn Td.
  assert (Ne : email u <> "").
  { destruct OK as [_ _ R _]. rewrite Forall_forall in R.
    now apply (R u HIn). }
  assert (Te : truthy (body_email b) = true).
  { rewrite He. simpl. apply String.eqb_neq in Ne. now rewrite Ne. }
  assert (Dup : existsb (has_email (email u)) (collection s) = true).
  { apply existsb_has_email. now apply in_map. }
  unfold app. simpl.
  rewrite (createUser_proceeds _ _ _ (all_truthy _ Tn Te Td)). simpl.
  unfold Document_save, getUsers. rewrite He. simpl castString.
  destruct (validated _) as [v |] eqn:V.
  - pose proof (validated_some _ _ V) as (Vi & Vn & Ve & Vb & _).
    simpl in Vi, Ve. injection Ve as Ve.
    unfold insertOne. simpl. rewrite Vi, <- Ve.
    rewrite (existsb_false_iff _ _ _ (existsb_has_id _ _) (fresh_id _ OK)).
    rewrite Dup. simpl.
    repeat split; try reflexivity.
    exists (collection s). now split.
  - simpl. repeat split; try reflexivity.
    + exists (collection s). now split.
    + intros n d Cn Cd. exfalso.
      rewrite Cn, Cd in V.
      rewrite validated_values in V; [discriminate | | assumption].
      exact (castString_truthy _ _ Tn Cn).
Qed.

(** C1, amended.  A create request that carries the email of a stored
    user, and whose name and date of birth are truthy and cast to the
    types of the schema, fails with the conflict of the unique index on
    [email]: the answer is 500 'Error creating user' with the
    duplicate-key error, no second record is written, and the stored user
    is still in what GET /users returns. *)
Theorem createUser_duplicate_email
  (b : Body) (s : Store) (u : User) (n : string) (d : Date) :
  Store_ok s ->
  In u (collection s) ->
  body_email b = JStr (email u) ->
  truthy (body_name b) = true ->
  truthy (body_dateOfBirth b) = true ->
  castString (body_name b) = Value n ->
  castDate Date_ofString (body_dateOfBirth b) = Value d ->
  fst (app Date_ofString (POST_createUser b) s)
  = json 500 (MessageError "Error creating user" (DuplicateKey "email_1"))
  /\ collection (snd (app Date_ofString (POST_createUser b) s))
     = collection s
  /\ (exists l,
        fst (app Date_ofString GET_users
               (snd (app Date_ofString (POST_createUser b) s)))
        = json 200 (Users l)
        /\ In u l).
Proof.
  intros OK HIn He Tn Td Cn Cd.
  destruct (createUser_stored_email b s u OK HIn He Tn Td)
    as (St & _ & Hc & Hg & Hb).
  specialize (Hb n d Cn Cd).
  split; [| split; assumption].
  destruct (fst (app Date_ofString (POST_createUser b) s)) as [st bd].
  simpl in St, Hb. now subst.
Qed.

(** *** Delete *)

Lemma deleteUser_malformed (id : string) (s : Store) :
  ObjectId_ofHex id = None ->
  app Date_ofString (DELETE_deleteUser id) s =
    (json 500 (MessageError "Error deleting user" (CastError "_id")), s).
Proof.
  intros H. unfold app. simpl. unfold deleteUser. simpl.
  unfold User_findByIdAndDelete. now rewrite H.
Qed.

Lemma deleteUser_not_found (id : string) (i : ObjectId) (s : Store) :
  ObjectId_ofHex id = Some i ->
  ~ In i (ids s) ->
  app Date_ofString (DELETE_deleteUser id) s =
    (json 404 (Message "User not found"), s).
Proof.
  intros H N. unfold app. simpl. unfold deleteUser. simpl.
  unfold User_findByIdAndDelete. rewrite H.
  apply find_has_id_none in N. now rewrite N.
Qed.

Lemma deleteUser_deleted (id : string) (s : Store) (u : User) :
  Store_ok s ->
  In u (collection s) ->
  ObjectId_ofHex id = Some (_id u) ->
  let s' := {| collection := delete_one (_id u) (collection s);
               oid_counter := oid_counter s |} in
  app Date_ofString (DELETE_deleteUser id) s =
    (json 200 (MessageUser "User deleted successfully" u), s')
  /\ fst (app Date_ofString GET_users s') = json 200 (Users (collection s'))
  /\ ~ In u (collection s')
  /\ ~ In (_id u) (ids s')
  /\ (forall w, In w (collection s) -> _id w <> _id u -> In w (collection s')).
Proof.
  intros OK HIn H s'.
  assert (G : ~ In (_id u) (ids s')).
  { apply delete_one_gone. apply OK. }
  split; [| split; [reflexivity | split; [| split; [exact G |]]]].
  - unfold app. simpl. unfold deleteUser. simpl.
    unfold User_findByIdAndDelete. rewrite H.
    rewrite (find_has_id_unique _ _ (ids_unique _ OK) HIn). reflexivity.
  - intros H'. apply G. unfold ids. now apply in_map.
  - intros w Hw N. now apply delete_one_others.
Qed.

(** *** Update *)

Lemma isValid_true (id : string) :
  isValid id = true <-> exists i, ObjectId_ofHex id = Some i.
Proof.
  unfold isValid. destruct (ObjectId_ofHex id) as [i |].
  - split; [eauto | reflexivity].
  - split; [discriminate | intros [i H]; discriminate].
Qed.

(** Every run of the update handler: either the collection is left as it
    is, or the answer is 200 and the first record of the given id is
    replaced by its update, which passed the validators and the unique
    index. *)
Lemma updateUser_cases (id : string) (b : Body) (s : Store) :
  (status (fst (app Date_ofString (PUT_updateUser id b) s)) <> 200
   /\ snd (app Date_ofString (PUT_updateUser id b) s) = s)
  \/ (exists u,
        ObjectId_ofHex id = Some (_id u)
        /\ List.find (has_id (_id u)) (collection s) = Some u
        /\ update_error Date_ofString b = None
        /\ (email (updated Date_ofString b u) = email u
            \/ ~ In (email (updated Date_ofString b u))
                  (map email (collection s)))
        /\ app Date_ofString (PUT_updateUser id b) s =
             (json 200 (MessageUser "User updated successfully"
                          (updated Date_ofString b u)),
              {| collection :=
                   replace_one (_id u) (updated Date_ofString b u)
                     (collection s);
                 oid_counter := oid_counter s |})).
Proof.
  unfold app. simpl.
  destruct (isValid id) eqn:V.
  - rewrite (updateUser_proceeds (UserModel Date_ofString) _ _ _ V). simpl.
    unfold User_findByIdAndUpdate.
    apply isValid_true in V. destruct V as [i Hi]. rewrite Hi.
    fold (update_error Date_ofString b).
    destruct (update_error Date_ofString b) as [e |] eqn:C.
    { left. simpl. split; [discriminate | reflexivity]. }
    destruct (List.find (has_id i) (collection s)) as [u |] eqn:F.
    2:{ left. simpl. split; [discriminate | reflexivity]. }
    fold (updated Date_ofString b u).
    pose proof (find_has_id_some _ _ _ F) as [HIn Hid]. subst i.
    destruct (String.eqb_spec (email (updated Date_ofString b u)) (email u))
      as [E | E]; cbn [negb andb].
    + right. exists u.
      do 3 (split; [first [assumption | reflexivity] |]).
      split; [left; exact E | reflexivity].
    + destruct (existsb (has_email (email (updated Date_ofString b u)))
                  (collection s)) eqn:X.
      * left. simpl. split; [discriminate | reflexivity].
      * assert (New : ~ In (email (updated Date_ofString b u))
                            (map email (collection s))).
        { intros H. apply existsb_has_email in H. congruence. }
        right. exists u.
        do 3 (split; [first [assumption | reflexivity] |]).
        split; [right; exact New | reflexivity].
  - left. rewrite (updateUser_rejects (UserModel Date_ofString) _ _ _ V).
    simpl. split; [discriminate | reflexivity].
Qed.

(** C3, amended.  An update whose identifier is not well-formed is
    answered 400, with the state untouched, whatever the storage layer is:
    the test comes before any call to it.  An update whose identifier is
    well-formed and is the id of no stored record is answered 404 when the
    fields it supplies pass the casts and the validators of the schema. *)
Theorem updateUser_identifier_errors (id : string) (b : Body) :
  (forall (S : Type) (M : Model S) (s : S),
      ObjectId_isValid M id = false ->
      updateUser M id b s = (json 400 (Message "Invalid user ID format"), s))
  /\ (forall s : Store,
        isValid id = false ->
        app Date_ofString (PUT_updateUser id b) s =
          (json 400 (Message "Invalid user ID format"), s))
  /\ (forall s : Store,
        isValid id = true ->
        (forall u, In u (collection s) -> ObjectId_ofHex id <> Some (_id u)) ->
        update_error Date_ofString b = None ->
        app Date_ofString (PUT_updateUser id b) s =
          (json 404 (Message "User not found"), s)).
Proof.
  split; [| split].
  - intros S M s V. now apply updateUser_rejects.
  - intros s V. unfold app. simpl.
    now apply (updateUser_rejects (UserModel Date_ofString)).
  - intros s V No C. unfold app. simpl.
    rewrite (updateUser_proceeds (UserModel Date_ofString) _ _ _ V). simpl.
    unfold User_findByIdAndUpdate.
    apply isValid_true in V. destruct V as [i Hi]. rewrite Hi.
    fold (update_error Date_ofString b). rewrite C.
    destruct (List.find (has_id i) (collection s)) as [u |] eqn:F;
      [| reflexivity].
    apply find_has_id_some in F. destruct F as [HIn Hid].
    exfalso. apply (No u HIn). congruence.
Qed.

Lemma update_error_none (b : Body) :
  update_error Date_ofString b = None ->
  (body_name b = JUndefined
   \/ exists x, castString (body_name b) = Value x /\ x <> "")
  /\ (body_email b = JUndefined
      \/ exists x, castString (body_email b) = Value x /\ x <> "")
  /\ (body_dateOfBirth b = JUndefined
      \/ exists d, castDate Date_ofString (body_dateOfBirth b) = Value d).
Proof.
  unfold update_error, checkUpdate, update_invalid_paths.
  destruct (cast_failed (update_path castString (body_name b))); [discriminate |].
  destruct (cast_failed (update_path castString (body_email b))); [discriminate |].
  destruct (cast_failed (update_path _ (body_dateOfBirth b))); [discriminate |].
  match goal with
  | |- match ?l with _ => _ end = None -> _ =>
      destruct l as [| p ps] eqn:L; [intros _ | discriminate]
  end.
  apply app_eq_nil in L. destruct L as [Ln L].
  apply app_eq_nil in L. destruct L as [Le Lb].
  apply update_path_required in Ln, Le, Lb.
  repeat split.
  - destruct Ln as [H | H]; [now left | right].
    now apply required_string_value.
  - destruct Le as [H | H]; [now left | right].
    now apply required_string_value.
  - destruct Lb as [H | H]; [now left | right].
    now apply required_date_value.
Qed.

Lemma updated_fields (b : Body) (u : User) :
  _id (updated Date_ofString b u) = _id u
  /\ (forall x, castString (body_name b) = Value x ->
              name (updated Date_ofString b u) = x)
  /\ (body_name b = JUndefined -> name (updated Date_ofString b u) = name u)
  /\ (forall x, castString (body_email b) = Value x ->
              email (updated Date_ofString b u) = x)
  /\ (body_email b = JUndefined ->
      email (updated Date_ofString b u) = email u)
  /\ (forall d, castDate Date_ofString (body_dateOfBirth b) = Value d ->
              dateOfBirth (updated Date_ofString b u) = d)
  /\ (body_dateOfBirth b = JUndefined ->
      dateOfBirth (updated Date_ofString b u) = dateOfBirth u).
Proof.
  unfold updated, applyUpdate. simpl.
  repeat split.
  - intros x C. now apply set_path_cast.
  - now intros ->.
  - intros x C. now apply set_path_cast.
  - now intros ->.
  - intros d C. now apply set_path_cast.
  - now intros ->.
Qed.

(** C6, amended.  An update whose identifier is the id of a stored record,
    whose supplied fields pass the casts and the validators of the schema,
    and whose email no other stored record has, is answered 200 with the
    updated record, which takes the place of the stored one: it keeps the
    id, every supplied field holds the supplied value, and every field the
    request leaves out holds the value it had. *)
Theorem updateUser_updated (id : string) (b : Body) (s : Store) (u : User) :
  Store_ok s ->
  In u (collection s) ->
  ObjectId_ofHex id = Some (_id u) ->
  update_error Date_ofString b = None ->
  (forall v, In v (collection s) ->
             email v = email (updated Date_ofString b u) -> _id v = _id u) ->
  let u' := updated Date_ofString b u in
  let s' := {| collection := replace_one (_id u) u' (collection s);
               oid_counter := oid_counter s |} in
  app Date_ofString (PUT_updateUser id b) s =
    (json 200 (MessageUser "User updated successfully" u'), s')
  /\ In u' (collection s')
  /\ _id u' = _id u
  /\ (forall x, castString (body_name b) = Value x -> name u' = x)
  /\ (body_name b = JUndefined -> name u' = name u)
  /\ (forall x, castString (body_email b) = Value x -> email u' = x)
  /\ (body_email b = JUndefined -> email u' = email u)
  /\ (forall d, castDate Date_ofString (body_dateOfBirth b) = Value d ->
              dateOfBirth u' = d)
  /\ (body_dateOfBirth b = JUndefined -> dateOfBirth u' = dateOfBirth u).
Proof.
  intros OK HIn Hi C Only u' s'.
  split; [| split; [| exact (updated_fields b u)]].
  - assert (V : isValid id = true) by (apply isValid_true; eauto).
    unfold app. simpl.
    rewrite (updateUser_proceeds (UserModel Date_ofString) _ _ _ V). simpl.
    unfold User_findByIdAndUpdate. rewrite Hi.
    fold (update_error Date_ofString b). rewrite C.
    rewrite (find_has_id_unique _ _ (ids_unique _ OK) HIn).
    fold (updated Date_ofString b u). fold u'.
    destruct (String.eqb_spec (email u') (email u)) as [E | E];
      cbn [negb andb]; [reflexivity |].
    rewrite (existsb_false_iff _ _ _ (existsb_has_email _ _)); [reflexivity |].
    intros H. apply in_map_iff in H. destruct H as [v [Hv1 Hv2]].
    assert (v = u) as ->.
    { apply (same_id_same_user (collection s)); auto. apply OK. }
    apply E. now symmetry.
  - simpl. apply replace_one_In. now apply in_map.
Qed.

(** *** The invariant *)

Lemma Store_ok_create (b : Body) (s : Store) :
  Store_ok s -> Store_ok (snd (createUser (UserModel Date_ofString) b s)).
Proof.
  intros OK. pose proof OK as [Ni Ne R G].
  destruct (createUser_cases b s) as [(_ & Hc & Hn) | (u & -> & Hi & _ & Nn & Nm & Fi & Fe)].
  - constructor; rewrite ?Hc; try assumption.
    eapply Forall_impl; [| exact G]. simpl. intros v Hv. lia.
  - simpl. constructor; simpl.
    + rewrite map_app. simpl. now apply NoDup_snoc.
    + rewrite map_app. simpl. now apply NoDup_snoc.
    + apply Forall_app. split; [assumption |]. constructor; [tauto | constructor].
    + apply Forall_app. split.
      * eapply Forall_impl; [| exact G]. simpl. intros v Hv. lia.
      * constructor; [lia | constructor].
Qed.

Lemma Store_ok_delete (id : string) (s : Store) :
  Store_ok s -> Store_ok (snd (deleteUser (UserModel Date_ofString) id s)).
Proof.
  intros OK. pose proof OK as [Ni Ne R G].
  unfold deleteUser. simpl. unfold User_findByIdAndDelete.
  destruct (ObjectId_ofHex id) as [i |]; [| exact OK].
  destruct (List.find (has_id i) (collection s)) as [u |]; [| exact OK].
  simpl. constructor; simpl.
  - now apply delete_one_NoDup.
  - now apply delete_one_NoDup.
  - rewrite Forall_forall in *. intros v Hv. apply R.
    eapply delete_one_incl; eassumption.
  - rewrite Forall_forall in *. intros v Hv. apply G.
    eapply delete_one_incl; eassumption.
Qed.

Lemma Store_ok_update (id : string) (b : Body) (s : Store) :
  Store_ok s -> Store_ok (snd (updateUser (UserModel Date_ofString) id b s)).
Proof.
  intros OK. pose proof OK as [Ni Ne R G].
  destruct (updateUser_cases id b s) as [(_ & Hs) | (u & Hi & F & C & New & Hr)];
    unfold app in *; simpl in *.
  - now rewrite Hs.
  - rewrite Hr. simpl.
    apply find_has_id_some in F. destruct F as [HIn _].
    pose proof (updated_fields b u) as (Ui & Un & Un' & Ue & Ue' & _).
    rewrite Forall_forall in R, G.
    constructor; simpl.
    + now rewrite replace_one_ids.
    + now apply (replace_one_emails _ u).
    + rewrite Forall_forall. intros v Hv.
      apply replace_one_incl in Hv. destruct Hv as [-> | Hv]; [| auto].
      apply update_error_none in C. destruct C as (Cn & Ce & _).
      split.
      * destruct Cn as [H | [x [H Hx]]];
          [rewrite (Un' H); now apply (R u) | now rewrite (Un x H)].
      * destruct Ce as [H | [x [H Hx]]];
          [rewrite (Ue' H); now apply (R u) | now rewrite (Ue x H)].
    + rewrite Forall_forall. intros v Hv.
      apply replace_one_incl in Hv. destruct Hv as [-> | Hv]; [| auto].
      rewrite Ui. auto.
Qed.

Lemma Store_ok_handle (r : Request) (s : Store) :
  Store_ok s -> Store_ok (snd (app Date_ofString r s)).
Proof.
  destruct r as [b | id | id b |]; unfold app; simpl.
  - apply Store_ok_create.
  - apply Store_ok_delete.
  - apply Store_ok_update.
  - auto.
Qed.

Lemma Store_ok_serve (rs : list Request) (s : Store) :
  Store_ok s -> Store_ok (snd (serve (UserModel Date_ofString) rs s)).
Proof.
  revert s. induction rs as [| r rs IH]; intros s OK; [exact OK |].
  rewrite serve_cons. simpl snd. apply IH.
  now apply (Store_ok_handle r s).
Qed.

(** Every state the service reaches from an empty collection satisfies
    the invariant. *)
Lemma Store_ok_reachable (rs : list Request) (s : Store) :
  collection s = [] -> Store_ok (snd (serve (UserModel Date_ofString) rs s)).
Proof.
  intros E. apply Store_ok_serve. constructor; rewrite E; simpl; constructor.
Qed.

(** *** The ids of the collection *)

Lemma handle_ids_step (r : Request) (s : Store) :
  ids_step r (ids s) (ids (snd (app Date_ofString r s))).
Proof.
  destruct r as [b | id | id b |].
  - destruct (createUser_cases b s)
      as [(_ & Hc & _) | (u & Hr & _ & _ & _ & _ & Fi & _)];
      unfold app, ids; cbn [handle].
    + rewrite Hc. constructor.
    + rewrite Hr. simpl. rewrite map_app. simpl. now constructor.
  - unfold app, ids. simpl. unfold deleteUser. simpl.
    unfold User_findByIdAndDelete.
    destruct (ObjectId_ofHex id) as [i |] eqn:Hi; [| constructor].
    destruct (List.find (has_id i) (collection s)) as [u |] eqn:F;
      [| constructor].
    simpl. destruct (delete_one_split _ _ _ F) as (l1 & l2 & -> & ->).
    now constructor.
  - destruct (updateUser_cases id b s)
      as [(_ & Hs) | (u & _ & _ & _ & _ & Hr)]; unfold ids.
    + rewrite Hs. constructor.
    + rewrite Hr. simpl. rewrite replace_one_ids; [constructor |].
      apply updated_fields.
  - constructor.
Qed.

Lemma updateUser_ids (id : string) (b : Body) (s : Store) :
  ids (snd (app Date_ofString (PUT_updateUser id b) s)) = ids s.
Proof.
  pose proof (handle_ids_step (PUT_updateUser id b) s) as H.
  now inversion H.
Qed.

Lemma serve_ids_trace (rs : list Request) (s : Store) :
  ids_trace rs (ids s) (ids (snd (serve (UserModel Date_ofString) rs s))).
Proof.
  revert s. induction rs as [| r rs IH]; intros s.
  - constructor.
  - rewrite serve_cons. simpl snd.
    econstructor; [apply handle_ids_step | apply IH].
Qed.

Lemma serve_ids_prefix (rs : list Request) (s : Store) :
  (forall id, ~ In (DELETE_deleteUser id) rs) ->
  exists added,
    ids (snd (serve (UserModel Date_ofString) rs s)) = (ids s ++ added)%list.
Proof.
  revert s. induction rs as [| r rs IH]; intros s No.
  - exists []. simpl. now rewrite app_nil_r.
  - rewrite serve_cons. simpl snd.
    destruct (IH (snd (handle (UserModel Date_ofString) r s))) as [added Ha].
    { intros id H. apply (No id). now right. }
    rewrite Ha.
    pose proof (handle_ids_step r s) as St. unfold app in St.
    destruct St as [r l | b l i N | id i l1 l2 Hi].
    + now exists added.
    + exists (i :: added). now rewrite <- app_assoc.
    + exfalso. apply (No id). now left.
Qed.

(** C9.  The id of a stored record is never rewritten.  An update,
    whatever its fields and whatever its outcome, leaves the ids of the
    collection as they are, each in its place, and the record it answers
    with has the id the request names.  Over any sequence of requests the
    ids change only by a create adding an id that no stored record has, or
    a delete dropping the id it names; so with no delete in the sequence
    every stored record keeps its id and its place. *)
Theorem id_never_reassigned :
  (forall (id : string) (b : Body) (s : Store),
      let res := fst (app Date_ofString (PUT_updateUser id b) s) in
      let s' := snd (app Date_ofString (PUT_updateUser id b) s) in
      ids s' = ids s
      /\ forall u', user_of (body res) = Some u' ->
                    ObjectId_ofHex id = Some (_id u')
                    /\ In u' (collection s') /\ In (_id u') (ids s))
  /\ (forall (rs : list Request) (s : Store),
        ids_trace rs (ids s)
          (ids (snd (serve (UserModel Date_ofString) rs s))))
  /\ (forall (rs : list Request) (s : Store),
        (forall id, ~ In (DELETE_deleteUser id) rs) ->
        exists added,
          ids (snd (serve (UserModel Date_ofString) rs s))
          = (ids s ++ added)%list).
Proof.
  split; [| split].
  - intros id b s res s'. split; [apply updateUser_ids |].
    subst res s'.
    destruct (updateUser_cases id b s)
      as [(Hn & Hs) | (u & Hi & F & _ & _ & Hr)].
    + intros u' Hu. exfalso. revert Hn Hu. unfold app. simpl.
      destruct (isValid id) eqn:V.
      * rewrite (updateUser_proceeds (UserModel Date_ofString) _ _ _ V).
        destruct (findByIdAndUpdate _ _ _ _ _ _) as [[[w |] | e] s1]; simpl;
          intros Hn Hu; try discriminate. now apply Hn.
      * rewrite (updateUser_rejects (UserModel Date_ofString) _ _ _ V).
        simpl. discriminate.
    + rewrite Hr. simpl. intros u' Hu. injection Hu as <-.
      apply find_has_id_some in F. destruct F as [HIn _].
      pose proof (updated_fields b u) as (Ui & _).
      rewrite Ui. repeat split.
      * exact Hi.
      * apply replace_one_In. now apply in_map.
      * unfold ids. now apply in_map.
  - apply serve_ids_trace.
  - apply serve_ids_prefix.
Qed.

(** *** Runs of creates *)

Lemma serve_creates (bodies : list Body) (s : Store) :
  Forall (fun r => status r = 201)
    (fst (serve (UserModel Date_ofString) (map POST_createUser bodies) s)) ->
  exists l,
    collection
      (snd (serve (UserModel Date_ofString) (map POST_createUser bodies) s))
    = (collection s ++ l)%list
    /\ Forall2 (submitted Date_ofString) bodies l.
Proof.
  revert s. induction bodies as [| b bodies IH]; intros s.
  - intros _. exists []. simpl. split; [now rewrite app_nil_r | constructor].
  - cbn [map]. rewrite serve_cons. cbn [fst snd handle].
    intros A. inversion A as [| r rs A1 A2]; subst.
    destruct (createUser_cases b s)
      as [(Hn & _) | (u & Hr & _ & Sub & _)]; [contradiction |].
    rewrite Hr in A2 |- *. cbn [fst snd] in *.
    destruct (IH _ A2) as (l & Hl & Fl).
    exists (u :: l). split.
    + rewrite Hl. simpl. now rewrite <- app_assoc.
    + now constructor.
Qed.

Lemma castString_recorded (v : jsval) (x : string) :
  castString v = Value x -> text_recorded v x.
Proof.
  destruct v as [ | | [|] | n | y]; simpl; intros C;
    try discriminate; now injection C as <-.
Qed.

Lemma castDate_recorded (v : jsval) (t : Date) :
  castDate Date_ofString v = Value t -> date_recorded Date_ofString v t.
Proof.
  destruct v as [ | | c | n | y]; simpl; try discriminate.
  - destruct (Z.abs (integer n) <=? max_time)%Z; [| discriminate].
    intros C. now injection C as <-.
  - destruct (String.eqb_spec y "") as [E | E]; [discriminate |].
    destruct (Date_ofString y) as [t' |]; [| discriminate].
    intros C. injection C as <-. now split.
Qed.

Lemma submitted_recorded (b : Body) (u : User) :
  submitted Date_ofString b u -> recorded Date_ofString b u.
Proof.
  intros (Hn & He & Hd). split; [| split].
  - now apply castString_recorded.
  - now apply castString_recorded.
  - now apply castDate_recorded.
Qed.

(** C7.  After [N] create requests from an empty collection that were all
    answered 201, GET /users answers 200 with the whole collection, which
    has exactly [N] records, the k-th matching what the k-th request
    submitted: its name and email are the submitted ones, and its date of
    birth is the date that the submitted one denotes. *)
Theorem getUsers_after_creates (bodies : list Body) (s : Store) :
  collection s = [] ->
  Forall (fun r => status r = 201)
    (fst (serve (UserModel Date_ofString) (map POST_createUser bodies) s)) ->
  exists l,
    fst (app Date_ofString GET_users
           (snd (serve (UserModel Date_ofString)
                   (map POST_createUser bodies) s)))
    = json 200 (Users l)
    /\ l = collection
             (snd (serve (UserModel Date_ofString)
                     (map POST_createUser bodies) s))
    /\ List.length l = List.length bodies
    /\ Forall2 (recorded Date_ofString) bodies l.
Proof.
  intros E A. destruct (serve_creates bodies s A) as (l & Hl & Fl).
  rewrite E in Hl. simpl in Hl.
  exists l. repeat split.
  - unfold app. simpl. unfold getUsers. simpl. now rewrite Hl.
  - now symmetry.
  - symmetry. eapply Forall2_length; eassumption.
  - clear Hl A. induction Fl as [| b u bs us H _ IH]; constructor.
    + now apply submitted_recorded.
    + exact IH.
Qed.

(** C4, at the input where the code departs from it.  A delete whose
    identifier is not an ObjectId matches no record, and is answered 500
    'Error deleting user', not 404: the cast of the identifier fails in
    the storage call, and the handler reports the error it throws. *)
Theorem deleteUser_malformed_id (s : Store) :
  ObjectId_ofHex "abc" = None
  /\ app Date_ofString (DELETE_deleteUser "abc") s =
       (json 500 (MessageError "Error deleting user" (CastError "_id")), s).
Proof.
  split; [reflexivity | now apply deleteUser_malformed].
Qed.

(** C8, at the input where the code departs from it.  The same malformed
    identifier is answered 400 by the update handler, which tests it, and
    500 by the delete handler, which does not: there the failed cast of
    the identifier is reported as a storage error, so a malformed
    identifier is not always mapped to 400, nor a delete that matches no
    record to 404. *)
Theorem malformed_id_update_400_delete_500 (b : Body) (s : Store) :
  isValid "abc" = false
  /\ app Date_ofString (PUT_updateUser "abc" b) s
     = (json 400 (Message "Invalid user ID format"), s)
  /\ app Date_ofString (DELETE_deleteUser "abc") s
     = (json 500 (MessageError "Error deleting user" (CastError "_id")), s).
Proof.
  split; [reflexivity |]. split.
  - unfold app. simpl.
    now apply (updateUser_rejects (UserModel Date_ofString)).
  - now apply deleteUser_malformed.
Qed.

End ModelFacts.

(** ** The model at work *)

Lemma Store_ok_empty (s : Store) : collection s = [] -> Store_ok s.
Proof.
  intros E. constructor; rewrite E; simpl; constructor.
Qed.

(** A number submitted for a text field is stored as its numeral. *)
Example number_as_text :
  castString (JNum (mkSafeInteger 42 eq_refl)) = Value "42"
  /\ castString (JNum (mkSafeInteger (-7) eq_refl)) = Value "-7".
Proof. split; reflexivity. Qed.

(** A session: a create, the same create again, the list, a delete with a
    malformed id, the delete of the stored user, the list. *)
Example session :
  fst (serve (UserModel Date_iso)
         [ POST_createUser john; POST_createUser john; GET_users;
           DELETE_deleteUser "abc"; DELETE_deleteUser id0; GET_users ]
         empty_store)
  = [ json 201 (MessageUser "User created successfully"
                  (mkUser 0%N "John Doe" "johndoe@example.com"
                     631152000000%Z));
      json 500 (MessageError "Error creating user" (DuplicateKey "email_1"));
      json 200 (Users [mkUser 0%N "John Doe" "johndoe@example.com"
                         631152000000%Z]);
      json 500 (MessageError "Error deleting user" (CastError "_id"));
      json 200 (MessageUser "User deleted successfully"
                  (mkUser 0%N "John Doe" "johndoe@example.com"
                     631152000000%Z));
      json 200 (Users []) ].
Proof. reflexivity. Qed.

(** C1 as stated fails: the request carries the email of a stored user,
    its name and its date of birth are present, and the failure is not the
    conflict: the date of birth is not a date, and the error is the
    validation error that comes before the insertion. *)
Lemma createUser_duplicate_not_conflict :
  In (mkUser 0%N "John Doe" "johndoe@example.com" 631152000000%Z)
     (collection two_users)
  /\ truthy (JStr "John Doe") = true
  /\ truthy (JStr "not a date") = true
  /\ fst (app Date_iso
            (POST_createUser
               (mkBody (JStr "John Doe") (JStr "johndoe@example.com")
                  (JStr "not a date")))
            two_users)
     = json 500 (MessageError "Error creating user"
                   (ValidationError ["dateOfBirth"])).
Proof.
  split; [left; reflexivity |]. repeat split.
Qed.

Lemma createUser_duplicate_email_witness :
  Store_ok two_users
  /\ fst (app Date_iso (POST_createUser john) two_users)
     = json 500 (MessageError "Error creating user" (DuplicateKey "email_1"))
  /\ collection (snd (app Date_iso (POST_createUser john) two_users))
     = collection two_users.
Proof.
  assert (OK : Store_ok two_users) by solve_Store_ok.
  pose proof
    (createUser_duplicate_email Date_iso john two_users
       (mkUser 0%N "John Doe" "johndoe@example.com" 631152000000%Z)
       "John Doe" 631152000000%Z
       OK (or_introl eq_refl) eq_refl eq_refl eq_refl eq_refl eq_refl)
    as (H1 & H2 & _).
  split; [exact OK |]. split; [exact H1 | exact H2].
Defined.

(** C2 as stated fails: every field of the request is present, and the
    answer is 500, because a stored user has the email. *)
Lemma createUser_present_not_created :
  truthy (body_name john) = true
  /\ truthy (body_email john) = true
  /\ truthy (body_dateOfBirth john) = true
  /\ status (fst (app Date_iso (POST_createUser john) two_users)) = 500.
Proof.
  repeat split.
Qed.

Lemma createUser_created_witness :
  Store_ok two_users
  /\ ~ In "jimdoe@example.com" (map email (collection two_users))
  /\ app Date_iso (POST_createUser jim) two_users =
       (json 201
          (MessageUser "User created successfully"
             (mkUser 2%N "Jim Doe" "jimdoe@example.com" 981158400000%Z)),
        {| collection :=
             collection two_users
             ++ [mkUser 2%N "Jim Doe" "jimdoe@example.com" 981158400000%Z];
           oid_counter := 3%N |})
  /\ ~ In 2%N (map _id (collection two_users)).
Proof.
  assert (OK : Store_ok two_users) by solve_Store_ok.
  assert (New : ~ In "jimdoe@example.com" (map email (collection two_users)))
    by (simpl; intuition discriminate).
  split; [exact OK |]. split; [exact New |].
  exact (createUser_created Date_iso jim two_users
           "Jim Doe" "jimdoe@example.com" 981158400000%Z
           OK eq_refl eq_refl eq_refl eq_refl eq_refl eq_refl New).
Defined.

(** C3 as stated fails: the identifier is well-formed and is the id of no
    stored record, and the answer is 500, because the date of birth the
    request supplies is not a date. *)
Lemma updateUser_unknown_id_not_404 :
  isValid id_unknown = true
  /\ ObjectId_ofHex id_unknown = Some 31247467184799259484448048487%N
  /\ ids two_users = [0%N; 1%N]
  /\ status
       (fst (app Date_iso
               (PUT_updateUser id_unknown
                  (mkBody JUndefined JUndefined (JStr "not a date")))
               two_users)) = 500.
Proof.
  repeat split.
Qed.

Lemma updateUser_identifier_errors_witness :
  app Date_iso (PUT_updateUser "abc" jane) two_users
  = (json 400 (Message "Invalid user ID format"), two_users)
  /\ app Date_iso (PUT_updateUser id_unknown jane) two_users
     = (json 404 (Message "User not found"), two_users).
Proof.
  split.
  - apply (proj1 (proj2 (updateUser_identifier_errors Date_iso "abc" jane))).
    reflexivity.
  - apply (proj2 (proj2
                    (updateUser_identifier_errors Date_iso id_unknown jane))).
    + reflexivity.
    + intros u [<- | [<- | []]]; discriminate.
    + reflexivity.
Defined.

(** C6 as stated fails, on both counts.  The identifier is the id of a
    stored record and the answer is 500 with the collection as it was,
    because another stored record has the email the request supplies.  And
    no field is overwritten with an absent value: the fields the request
    leaves out keep what they held, and the fields it sets to [null] get
    the request rejected, with the collection as it was. *)
Lemma updateUser_email_taken :
  ObjectId_ofHex id0 = Some 0%N
  /\ ids two_users = [0%N; 1%N]
  /\ app Date_iso
       (PUT_updateUser id0
          (mkBody JUndefined (JStr "janedoe@example.com") JUndefined))
       two_users
     = (json 500 (MessageError "Error updating user" (DuplicateKey "email_1")),
        two_users)
  /\ fst (app Date_iso
            (PUT_updateUser id0 (mkBody (JStr "Johnny") JUndefined JUndefined))
            two_users)
     = json 200
         (MessageUser "User updated successfully"
            (mkUser 0%N "Johnny" "johndoe@example.com" 631152000000%Z))
  /\ status
       (fst (app Date_iso
               (PUT_updateUser id0 (mkBody (JStr "Johnny") JNull JNull))
               two_users)) = 500
  /\ snd (app Date_iso
            (PUT_updateUser id0 (mkBody (JStr "Johnny") JNull JNull))
            two_users) = two_users.
Proof.
  repeat split.
Qed.

Lemma updateUser_updated_witness :
  app Date_iso
    (PUT_updateUser id0 (mkBody (JStr "Johnny") JUndefined JUndefined))
    two_users
  = (json 200
       (MessageUser "User updated successfully"
          (mkUser 0%N "Johnny" "johndoe@example.com" 631152000000%Z)),
     {| collection :=
          [ mkUser 0%N "Johnny" "johndoe@example.com" 631152000000%Z;
            mkUser 1%N "Jane Doe" "janedoe@example.com" 705888000000%Z ];
        oid_counter := 2%N |}).
Proof.
  assert (OK : Store_ok two_users) by solve_Store_ok.
  assert (Only : forall v, In v (collection two_users) ->
                   email v
                   = email (updated Date_iso
                              (mkBody (JStr "Johnny") JUndefined JUndefined)
                              (mkUser 0%N "John Doe" "johndoe@example.com"
                                 631152000000%Z)) ->
                   _id v = 0%N).
  { intros v [<- | [<- | []]]; simpl; intros E;
      [reflexivity | discriminate]. }
  exact (proj1
           (updateUser_updated Date_iso id0
              (mkBody (JStr "Johnny") JUndefined JUndefined) two_users
              (mkUser 0%N "John Doe" "johndoe@example.com" 631152000000%Z)
              OK (or_introl eq_refl) eq_refl eq_refl Only)).
Defined.

Lemma createUser_missing_field_witness :
  createUser (UserModel Date_iso)
    (mkBody (JStr "John Doe") JUndefined (JStr "1990-01-01")) two_users
  = (json 400 (Message "All fields are required."), two_users).
Proof.
  apply createUser_missing_field. right. left. reflexivity.
Defined.

Lemma createUser_400_iff_falsy_witness :
  createUser (UserModel Date_iso)
    (mkBody (JStr "") (JStr "johndoe@example.com") (JStr "1990-01-01"))
    empty_store
  = (json 400 (Message "All fields are required."), empty_store).
Proof.
  apply (proj2 (proj2 (createUser_400_iff_falsy
                         (mkBody (JStr "") (JStr "johndoe@example.com")
                            (JStr "1990-01-01"))))).
  reflexivity.
Defined.

Lemma getUsers_after_creates_witness :
  exists l,
    fst (app Date_iso GET_users
           (snd (serve (UserModel Date_iso)
                   (map POST_createUser [john; jane]) empty_store)))
    = json 200 (Users l)
    /\ l = collection
             (snd (serve (UserModel Date_iso)
                     (map POST_createUser [john; jane]) empty_store))
    /\ List.length l = 2
    /\ Forall2 (recorded Date_iso) [john; jane] l.
Proof.
  apply (getUsers_after_creates Date_iso [john; jane] empty_store).
  - reflexivity.
  - vm_compute. repeat constructor.
Defined.

Lemma id_never_reassigned_witness :
  exists added,
    ids (snd (serve (UserModel Date_iso)
                [PUT_updateUser id0 jane; POST_createUser john; GET_users]
                two_users))
    = (ids two_users ++ added)%list.
Proof.
  apply (proj2 (proj2 (id_never_reassigned Date_iso))).
  intros id [H | [H | [H | []]]]; discriminate.
Defined.

(** * Further properties of the handlers over the model *)

(** ** The collection, continued *)

Lemma delete_one_length (i : ObjectId) (l : list User) (u : User) :
  List.find (has_id i) l = Some u ->
  Datatypes.S (List.length (delete_one i l)) = List.length l.
Proof.
  induction l as [| v l IH]; simpl; [discriminate |].
  destruct (has_id i v); simpl; [reflexivity |].
  intros F. now rewrite (IH F).
Qed.

Lemma replace_one_length (i : ObjectId) (u' : User) (l : list User) :
  List.length (replace_one i u' l) = List.length l.
Proof.
  induction l as [| v l IH]; simpl; [reflexivity |].
  destruct (has_id i v); simpl; [reflexivity | now rewrite IH].
Qed.

Lemma replace_one_others (i : ObjectId) (u' : User) (l : list User) (w : User) :
  In w l -> _id w <> i -> In w (replace_one i u' l).
Proof.
  induction l as [| v l IH]; simpl; [tauto |].
  unfold has_id at 1. destruct (N.eqb_spec (_id v) i) as [E | E]; simpl.
  - intros [H | H] N; [congruence | auto].
  - intros [H | H] N; auto.
Qed.

Lemma replace_one_same (i : ObjectId) (l : list User) (u : User) :
  List.find (has_id i) l = Some u -> replace_one i u l = l.
Proof.
  induction l as [| v l IH]; simpl; [reflexivity |].
  destruct (has_id i v).
  - intros H. now injection H as ->.
  - intros F. now rewrite (IH F).
Qed.

Lemma find_snoc (i : ObjectId) (l : list User) (u : User) :
  ~ In i (map _id l) -> _id u = i ->
  List.find (has_id i) (l ++ [u]) = Some u.
Proof.
  induction l as [| v l IH]; simpl; intros N E.
  - unfold has_id. apply N.eqb_eq in E. now rewrite E.
  - unfold has_id at 1. destruct (N.eqb_spec (_id v) i) as [E' | E'].
    + exfalso. tauto.
    + apply IH; tauto.
Qed.

Lemma delete_one_snoc (i : ObjectId) (l : list User) (u : User) :
  ~ In i (map _id l) -> _id u = i -> delete_one i (l ++ [u]) = l.
Proof.
  induction l as [| v l IH]; simpl; intros N E.
  - unfold has_id. apply N.eqb_eq in E. now rewrite E.
  - unfold has_id at 1. destruct (N.eqb_spec (_id v) i) as [E' | E'].
    + exfalso. tauto.
    + rewrite IH; tauto.
Qed.

Lemma delete_one_email_gone (l : list User) (u : User) :
  NoDup (map _id l) -> NoDup (map email l) -> In u l ->
  ~ In (email u) (map email (delete_one (_id u) l)).
Proof.
  induction l as [| v l IH]; simpl; intros NDi NDe HIn; [tauto |].
  inversion NDi as [| x xs Hx NDi']; subst.
  inversion NDe as [| y ys Hy NDe']; subst.
  unfold has_id at 1. destruct (N.eqb_spec (_id v) (_id u)) as [E | E].
  - destruct HIn as [-> | HIn]; [assumption |].
    exfalso. apply Hx. rewrite E. now apply in_map.
  - destruct HIn as [-> | HIn]; [congruence |].
    simpl. intros [H | H].
    + apply Hy. rewrite H. now apply in_map.
    + now apply IH.
Qed.

Lemma ids_step_keeps (r : Request) (l l' : list ObjectId) (i : ObjectId) :
  ids_step r l l' ->
  In i l ->
  (forall id, r = DELETE_deleteUser id -> ObjectId_ofHex id <> Some i) ->
  In i l'.
Proof.
  intros St. destruct St as [r l | b l j N | id j l1 l2 Hj]; intros HIn No.
  - assumption.
  - apply in_or_app. now left.
  - apply in_app_or in HIn. apply in_or_app.
    destruct HIn as [H | [H | H]]; auto.
    exfalso. apply (No id eq_refl). congruence.
Qed.

Lemma castString_truthy_value (v : jsval) :
  truthy v = true -> exists x, castString v = Value x /\ x <> "".
Proof.
  intros T.
  destruct v as [ | | [|] | n | y]; simpl in T; try discriminate;
    eexists; (split; [reflexivity |]).
  - discriminate.
  - apply string_of_int_nonempty.
  - intros ->. discriminate.
Qed.

Lemma find_replace_one (i : ObjectId) (u u' : User) (l : list User) :
  List.find (has_id i) l = Some u -> _id u' = i ->
  List.find (has_id i) (replace_one i u' l) = Some u'.
Proof.
  intros F E. induction l as [| v l IH]; simpl in *; [discriminate |].
  destruct (has_id i v) eqn:H; simpl.
  - unfold has_id. apply N.eqb_eq in E. now rewrite E.
  - rewrite H. now apply IH.
Qed.

Lemma replace_one_idem (i : ObjectId) (u' : User) (l : list User) :
  _id u' = i ->
  replace_one i u' (replace_one i u' l) = replace_one i u' l.
Proof.
  intros E. induction l as [| v l IH]; simpl; [reflexivity |].
  destruct (has_id i v) eqn:H; simpl.
  - unfold has_id. apply N.eqb_eq in E. now rewrite E.
  - now rewrite H, IH.
Qed.

Lemma set_path_idem {A : Type} (p : option (Casted A)) (old : A) :
  set_path p (set_path p old) = set_path p old.
Proof. destruct p as [[ | | a] |]; reflexivity. Qed.

Lemma Nat_eqb_false (n m : nat) : n <> m -> (n =? m)%nat = false.
Proof. intros H. now apply Nat.eqb_neq. Qed.

Section ModelMore.

Variable Date_ofString : string -> option Date.

(** A create whose fields are accepted, on a collection where the id and
    the email are new. *)
Lemma createUser_accepts (b : Body) (s : Store) (n e : string) (d : Date) :
  some_field_falsy b = false ->
  castString (body_name b) = Value n -> n <> "" ->
  castString (body_email b) = Value e -> e <> "" ->
  castDate Date_ofString (body_dateOfBirth b) = Value d ->
  ~ In (oid_counter s) (map _id (collection s)) ->
  ~ In e (map email (collection s)) ->
  createUser (UserModel Date_ofString) b s =
    (json 201 (MessageUser "User created successfully"
                 (mkUser (oid_counter s) n e d)),
     {| collection := collection s ++ [mkUser (oid_counter s) n e d];
        oid_counter := N.succ (oid_counter s) |}).
Proof.
  intros F Cn Nn Ce Ne Cd Fi Fe.
  rewrite (createUser_proceeds _ _ _ F). simpl.
  unfold Document_save. rewrite Cn, Ce, Cd.
  rewrite validated_values by assumption.
  unfold insertOne. simpl.
  rewrite (existsb_false_iff _ _ _ (existsb_has_id _ _) Fi).
  rewrite (existsb_false_iff _ _ _ (existsb_has_email _ _) Fe).
  reflexivity.
Qed.

(** X1.  A delete whose identifier is well-formed and is the id of no
    stored record is answered 404 'User not found', and the state is the
    one the request found. *)
Theorem deleteUser_unknown_id (id : string) (s : Store) :
  isValid id = true ->
  (forall u, In u (collection s) -> ObjectId_ofHex id <> Some (_id u)) ->
  app Date_ofString (DELETE_deleteUser id) s =
    (json 404 (Message "User not found"), s).
Proof.
  intros V No. apply isValid_true in V. destruct V as [i Hi].
  apply (deleteUser_not_found Date_ofString id i s Hi).
  unfold ids. intros H. apply in_map_iff in H. destruct H as [u [E HIn]].
  apply (No u HIn). congruence.
Qed.

(** X2.  A delete whose identifier is the id of a stored record is
    answered 200 with that record as it was stored; afterwards the
    collection has one record fewer, no record of that id, and every other
    record it had. *)
Theorem deleteUser_removes (id : string) (s : Store) (u : User) :
  Store_ok s ->
  In u (collection s) ->
  ObjectId_ofHex id = Some (_id u) ->
  fst (app Date_ofString (DELETE_deleteUser id) s)
  = json 200 (MessageUser "User deleted successfully" u)
  /\ Datatypes.S
       (List.length
          (collection (snd (app Date_ofString (DELETE_deleteUser id) s))))
     = List.length (collection s)
  /\ ~ In (_id u) (ids (snd (app Date_ofString (DELETE_deleteUser id) s)))
  /\ (forall w, In w (collection s) -> _id w <> _id u ->
        In w (collection (snd (app Date_ofString (DELETE_deleteUser id) s)))).
Proof.
  intros OK HIn Hi.
  destruct (deleteUser_deleted Date_ofString id s u OK HIn Hi)
    as (Hr & _ & _ & G & Oth).
  rewrite Hr. cbn [fst snd collection].
  split; [reflexivity |]. split; [| split; assumption].
  apply (delete_one_length _ _ u).
  apply find_has_id_unique; [apply OK | assumption].
Qed.

(** X3.  Whatever requests are served, the collection keeps what the
    schema asks of it: no two records have the same id, no two records
    have the same email, and no record has an empty name or email. *)
Theorem collection_invariant (rs : list Request) (s : Store) :
  Store_ok s ->
  NoDup (map _id (collection (snd (serve (UserModel Date_ofString) rs s))))
  /\ NoDup
       (map email (collection (snd (serve (UserModel Date_ofString) rs s))))
  /\ Forall (fun u => name u <> "" /\ email u <> "")
       (collection (snd (serve (UserModel Date_ofString) rs s))).
Proof.
  intros OK.
  destruct (Store_ok_serve Date_ofString rs s OK) as [Ni Ne R _].
  auto.
Qed.

(** X4.  A request that is not answered 200 or 201 leaves the collection
    as it was, and GET /users leaves it as it was whatever the answer. *)
Theorem failed_request_keeps_collection (r : Request) (s : Store) :
  (status (fst (app Date_ofString r s)) <> 200 ->
   status (fst (app Date_ofString r s)) <> 201 ->
   collection (snd (app Date_ofString r s)) = collection s)
  /\ (r = GET_users -> snd (app Date_ofString r s) = s).
Proof.
  split; [| intros ->; reflexivity].
  destruct r as [b | id | id b |].
  - intros _ N.
    destruct (createUser_cases Date_ofString b s)
      as [(_ & Hc & _) | (u & Hr & _)]; unfold app; cbn [handle].
    + exact Hc.
    + exfalso. apply N. unfold app. cbn [handle]. now rewrite Hr.
  - unfold app. simpl. unfold deleteUser. simpl.
    unfold User_findByIdAndDelete.
    destruct (ObjectId_ofHex id) as [i |]; [| reflexivity].
    destruct (List.find (has_id i) (collection s)) as [u |]; [| reflexivity].
    simpl. intros N. now elim N.
  - intros N _.
    destruct (updateUser_cases Date_ofString id b s)
      as [(_ & Hs) | (u & _ & _ & _ & _ & Hr)].
    + now rewrite Hs.
    + exfalso. apply N. now rewrite Hr.
  - reflexivity.
Qed.

(** X5.  A create answered 201 followed by the delete of the id it was
    given is answered 200 with the record just created, and the collection
    is back to what it was before the create. *)
Theorem create_then_delete (b : Body) (id : string) (s : Store) :
  status (fst (app Date_ofString (POST_createUser b) s)) = 201 ->
  ObjectId_ofHex id = Some (oid_counter s) ->
  exists u,
    fst (serve (UserModel Date_ofString)
           [POST_createUser b; DELETE_deleteUser id] s)
    = [ json 201 (MessageUser "User created successfully" u);
        json 200 (MessageUser "User deleted successfully" u) ]
    /\ collection
         (snd (serve (UserModel Date_ofString)
                 [POST_createUser b; DELETE_deleteUser id] s))
       = collection s.
Proof.
  intros St Hi.
  destruct (createUser_cases Date_ofString b s)
    as [(N & _) | (u & Hr & Hu & _ & _ & _ & Fi & _)].
  { exfalso. apply N. exact St. }
  exists u.
  rewrite serve_cons. cbn [handle]. rewrite Hr. cbn [fst snd].
  rewrite serve_cons. cbn [handle serve fst snd].
  unfold deleteUser. simpl. unfold User_findByIdAndDelete. rewrite Hi.
  simpl. rewrite <- Hu.
  rewrite (find_snoc _ _ _ Fi eq_refl).
  simpl. rewrite (delete_one_snoc _ _ _ Fi eq_refl).
  split; reflexivity.
Qed.

Lemma deleteUser_200 (id : string) (s : Store) :
  status (fst (app Date_ofString (DELETE_deleteUser id) s)) = 200 ->
  exists i u,
    ObjectId_ofHex id = Some i
    /\ List.find (has_id i) (collection s) = Some u
    /\ app Date_ofString (DELETE_deleteUser id) s
       = (json 200 (MessageUser "User deleted successfully" u),
          {| collection := delete_one i (collection s);
             oid_counter := oid_counter s |}).
Proof.
  unfold app. simpl. unfold deleteUser. simpl.
  unfold User_findByIdAndDelete.
  destruct (ObjectId_ofHex id) as [i |]; [| discriminate].
  destruct (List.find (has_id i) (collection s)) as [u |] eqn:F;
    [| discriminate].
  intros _. exists i, u. auto.
Qed.

(** X6.  After a delete answered 200, the same delete again is answered
    404 and changes nothing. *)
Theorem delete_twice (id : string) (s : Store) :
  Store_ok s ->
  status (fst (app Date_ofString (DELETE_deleteUser id) s)) = 200 ->
  app Date_ofString (DELETE_deleteUser id)
    (snd (app Date_ofString (DELETE_deleteUser id) s))
  = (json 404 (Message "User not found"),
     snd (app Date_ofString (DELETE_deleteUser id) s)).
Proof.
  intros OK St.
  destruct (deleteUser_200 id s St) as (i & u & Hi & F & Hr).
  rewrite Hr. cbn [snd].
  apply (deleteUser_not_found Date_ofString id i _ Hi).
  unfold ids. simpl. apply delete_one_gone. apply OK.
Qed.

(** X7.  An update that supplies no field, on the id of a stored record,
    is answered 200 with the record as it is stored, and changes nothing. *)
Theorem update_without_fields (id : string) (s : Store) (u : User) :
  Store_ok s ->
  In u (collection s) ->
  ObjectId_ofHex id = Some (_id u) ->
  app Date_ofString (PUT_updateUser id no_fields) s
  = (json 200 (MessageUser "User updated successfully" u), s).
Proof.
  intros OK HIn Hi.
  assert (V : isValid id = true) by (apply isValid_true; eauto).
  pose proof (find_has_id_unique _ _ (ids_unique _ OK) HIn) as F.
  unfold app. simpl.
  rewrite (updateUser_proceeds (UserModel Date_ofString) _ _ _ V). simpl.
  unfold User_findByIdAndUpdate. rewrite Hi. simpl. rewrite F.
  unfold applyUpdate. simpl.
  rewrite String.eqb_refl. simpl.
  assert (E : {| _id := _id u; name := name u; email := email u;
                 dateOfBirth := dateOfBirth u |} = u) by now destruct u.
  rewrite E, (replace_one_same _ _ _ F). now destruct s.
Qed.

(** X8.  An update that supplies [null] or the empty string for a field
    is answered 500 and changes nothing, whether or not the identifier is
    the id of a stored record: no update blanks a required field. *)
Theorem update_blank_rejected (id : string) (b : Body) (s : Store) :
  isValid id = true ->
  (body_name b = JNull \/ body_name b = JStr ""
   \/ body_email b = JNull \/ body_email b = JStr ""
   \/ body_dateOfBirth b = JNull \/ body_dateOfBirth b = JStr "") ->
  status (fst (app Date_ofString (PUT_updateUser id b) s)) = 500
  /\ snd (app Date_ofString (PUT_updateUser id b) s) = s.
Proof.
  intros V Blank.
  assert (C : exists e, update_error Date_ofString b = Some e).
  { destruct (update_error Date_ofString b) as [e |] eqn:C; [eauto |].
    exfalso. apply update_error_none in C.
    destruct C as (Cn & Ce & Cd).
    destruct Blank as [H | [H | [H | [H | [H | H]]]]]; rewrite H in *.
    - destruct Cn as [Cn | [x [Cn _]]]; discriminate.
    - destruct Cn as [Cn | [x [Cn Nx]]]; [discriminate |].
      injection Cn as <-. now apply Nx.
    - destruct Ce as [Ce | [x [Ce _]]]; discriminate.
    - destruct Ce as [Ce | [x [Ce Nx]]]; [discriminate |].
      injection Ce as <-. now apply Nx.
    - destruct Cd as [Cd | [d Cd]]; discriminate.
    - destruct Cd as [Cd | [d Cd]]; discriminate. }
  destruct C as [e C].
  unfold app. simpl.
  rewrite (updateUser_proceeds (UserModel Date_ofString) _ _ _ V). simpl.
  unfold User_findByIdAndUpdate.
  apply isValid_true in V. destruct V as [i Hi]. rewrite Hi.
  fold (update_error Date_ofString b). rewrite C. split; reflexivity.
Qed.

(** X9.  A create whose three fields are truthy but whose date of birth
    does not cast to a date is answered 500 with a validation error on
    [dateOfBirth], and nothing is written. *)
Theorem create_invalid_date (b : Body) (s : Store) :
  truthy (body_name b) = true ->
  truthy (body_email b) = true ->
  truthy (body_dateOfBirth b) = true ->
  castDate Date_ofString (body_dateOfBirth b) = Uncastable ->
  fst (app Date_ofString (POST_createUser b) s)
  = json 500 (MessageError "Error creating user"
                (ValidationError ["dateOfBirth"]))
  /\ collection (snd (app Date_ofString (POST_createUser b) s))
     = collection s.
Proof.
  intros Tn Te Td Cd.
  destruct (castString_truthy_value _ Tn) as (n & Cn & Nn).
  destruct (castString_truthy_value _ Te) as (e & Ce & Ne).
  unfold app. simpl.
  rewrite (createUser_proceeds _ _ _ (all_truthy _ Tn Te Td)). simpl.
  unfold Document_save, validated, invalid_paths. simpl.
  rewrite Cn, Ce, Cd. simpl.
  apply String.eqb_neq in Nn. apply String.eqb_neq in Ne.
  rewrite Nn, Ne. simpl. split; reflexivity.
Qed.

(** X10.  A record stays in the collection through every request except
    a delete that names its id: if no delete of the run names the id of a
    stored record, a record of that id is still stored after the run. *)
Theorem record_persists (rs : list Request) (s : Store) (i : ObjectId) :
  In i (ids s) ->
  (forall id, In (DELETE_deleteUser id) rs -> ObjectId_ofHex id <> Some i) ->
  In i (ids (snd (serve (UserModel Date_ofString) rs s))).
Proof.
  revert s. induction rs as [| r rs IH]; intros s HIn No; [exact HIn |].
  rewrite serve_cons. cbn [snd]. apply IH.
  - apply (ids_step_keeps r (ids s)).
    + apply (handle_ids_step Date_ofString r s).
    + exact HIn.
    + intros id ->. apply No. now left.
  - intros id H. apply No. now right.
Qed.

Lemma updateUser_length (id : string) (b : Body) (s : Store) :
  List.length (collection (snd (app Date_ofString (PUT_updateUser id b) s)))
  = List.length (collection s).
Proof.
  destruct (updateUser_cases Date_ofString id b s)
    as [(_ & Hs) | (u & Hi & _ & _ & _ & Hr)].
  - now rewrite Hs.
  - rewrite Hr. cbn [snd collection]. apply replace_one_length.
Qed.

(** X11.  An update, whatever its outcome, neither adds nor removes a
    record, and leaves every record whose id it does not name as it
    was. *)
Theorem update_touches_one (id : string) (b : Body) (s : Store) :
  List.length (collection (snd (app Date_ofString (PUT_updateUser id b) s)))
  = List.length (collection s)
  /\ (forall w, In w (collection s) -> ObjectId_ofHex id <> Some (_id w) ->
        In w (collection (snd (app Date_ofString (PUT_updateUser id b) s)))).
Proof.
  split; [apply updateUser_length |].
  destruct (updateUser_cases Date_ofString id b s)
    as [(_ & Hs) | (u & Hi & _ & _ & _ & Hr)].
  - rewrite Hs. auto.
  - rewrite Hr. cbn [snd collection].
    intros w Hw N. apply replace_one_others; [assumption |].
    intros E. apply N. now rewrite E.
Qed.

Lemma handle_count (r : Request) (s : Store) :
  List.length (collection (snd (app Date_ofString r s)))
  + deleted r (fst (app Date_ofString r s))
  = List.length (collection s) + created (fst (app Date_ofString r s)).
Proof.
  unfold created, deleted. destruct r as [b | id | id b |].
  - destruct (createUser_cases Date_ofString b s)
      as [(N & Hc & _) | (u & Hr & _)]; unfold app in *; cbn [handle] in *.
    + rewrite Hc, (Nat_eqb_false _ _ N). lia.
    + rewrite Hr. cbn [fst snd collection status json].
      rewrite length_app. simpl. lia.
  - unfold app. simpl. unfold deleteUser. simpl.
    unfold User_findByIdAndDelete.
    destruct (ObjectId_ofHex id) as [i |]; [| simpl; lia].
    destruct (List.find (has_id i) (collection s)) as [u |] eqn:F;
      [| simpl; lia].
    cbn [fst snd collection status json].
    rewrite <- (delete_one_length _ _ _ F). simpl. lia.
  - rewrite (updateUser_length id b s).
    assert (N : status (fst (app Date_ofString (PUT_updateUser id b) s))
                <> 201).
    { unfold app. simpl. destruct (isValid id) eqn:V.
      - rewrite (updateUser_proceeds (UserModel Date_ofString) _ _ _ V).
        destruct (findByIdAndUpdate _ _ _ _ _ _) as [[[w |] | e] s1];
          simpl; discriminate.
      - rewrite (updateUser_rejects (UserModel Date_ofString) _ _ _ V).
        simpl. discriminate. }
    rewrite (Nat_eqb_false _ _ N). lia.
  - simpl. lia.
Qed.

(** X14.  An update answered 200 is idempotent: the same update again is
    answered 200 with the same record and changes nothing more. *)
Theorem update_idempotent (id : string) (b : Body) (s : Store) :
  status (fst (app Date_ofString (PUT_updateUser id b) s)) = 200 ->
  app Date_ofString (PUT_updateUser id b)
    (snd (app Date_ofString (PUT_updateUser id b) s))
  = (fst (app Date_ofString (PUT_updateUser id b) s),
     snd (app Date_ofString (PUT_updateUser id b) s)).
Proof.
  intros St.
  destruct (updateUser_cases Date_ofString id b s)
    as [(N & _) | (u & Hi & F & C & _ & Hr)]; [contradiction |].
  rewrite Hr. cbn [fst snd].
  assert (V : isValid id = true) by (apply isValid_true; eauto).
  assert (Ui : _id (updated Date_ofString b u) = _id u) by reflexivity.
  unfold app. simpl.
  rewrite (updateUser_proceeds (UserModel Date_ofString) _ _ _ V). simpl.
  unfold User_findByIdAndUpdate. rewrite Hi.
  fold (update_error Date_ofString b). rewrite C. simpl.
  rewrite (find_replace_one _ _ _ _ F Ui).
  fold (updated Date_ofString b (updated Date_ofString b u)).
  assert (I : updated Date_ofString b (updated Date_ofString b u)
              = updated Date_ofString b u).
  { unfold updated, applyUpdate. simpl. now rewrite !set_path_idem. }
  change (set_path (update_path castString (body_email b))
            (email (updated Date_ofString b u)))
    with (email (updated Date_ofString b (updated Date_ofString b u))).
  rewrite I, String.eqb_refl. simpl.
  now rewrite (replace_one_idem _ _ _ Ui).
Qed.

(** X12.  Over any run, the records are accounted for: the size of the
    collection after the run, plus the number of deletes answered 200, is
    its size before the run plus the number of answers 201. *)
Theorem run_count (rs : list Request) (s : Store) :
  List.length (collection (snd (serve (UserModel Date_ofString) rs s)))
  + count_deleted rs (fst (serve (UserModel Date_ofString) rs s))
  = List.length (collection s)
    + count_created (fst (serve (UserModel Date_ofString) rs s)).
Proof.
  revert s. induction rs as [| r rs IH]; intros s; [reflexivity |].
  rewrite serve_cons. cbn [fst snd count_deleted count_created].
  pose proof (IH (snd (handle (UserModel Date_ofString) r s))) as H.
  pose proof (handle_count r s) as K. unfold app in K.
  lia.
Qed.

(** X13.  Deleting a record frees its email: a create that carries the
    email of a stored record, with a name and a date of birth of the types
    of the schema, is answered 500 while the record is stored, and 201
    once the record has been deleted. *)
Theorem delete_frees_email
  (id : string) (b : Body) (s : Store) (u : User) (n : string) (d : Date) :
  Store_ok s ->
  In u (collection s) ->
  ObjectId_ofHex id = Some (_id u) ->
  body_email b = JStr (email u) ->
  truthy (body_name b) = true ->
  truthy (body_dateOfBirth b) = true ->
  castString (body_name b) = Value n ->
  castDate Date_ofString (body_dateOfBirth b) = Value d ->
  fst (app Date_ofString (POST_createUser b) s)
  = json 500 (MessageError "Error creating user" (DuplicateKey "email_1"))
  /\ fst (serve (UserModel Date_ofString)
            [DELETE_deleteUser id; POST_createUser b] s)
     = [ json 200 (MessageUser "User deleted successfully" u);
         json 201 (MessageUser "User created successfully"
                     (mkUser (oid_counter s) n (email u) d)) ].
Proof.
  intros OK HIn Hi He Tn Td Cn Cd.
  split.
  { destruct (createUser_stored_email Date_ofString b s u OK HIn He Tn Td)
      as (St & _ & _ & _ & Hb).
    specialize (Hb n d Cn Cd).
    destruct (fst (app Date_ofString (POST_createUser b) s)) as [st bd].
    simpl in St, Hb. now subst. }
  pose proof OK as [Ni Ne R G].
  assert (Nu : email u <> "").
  { rewrite Forall_forall in R. now apply (R u HIn). }
  assert (Te : truthy (body_email b) = true).
  { rewrite He. simpl. apply String.eqb_neq in Nu. now rewrite Nu. }
  destruct (deleteUser_deleted Date_ofString id s u OK HIn Hi)
    as (Hr & _).
  unfold app in Hr.
  rewrite serve_cons. rewrite Hr. cbn [fst snd].
  rewrite serve_cons. cbn [handle serve fst snd].
  rewrite (createUser_accepts b _ n (email u) d).
  - reflexivity.
  - now apply all_truthy.
  - exact Cn.
  - exact (castString_truthy _ _ Tn Cn).
  - now rewrite He.
  - exact Nu.
  - exact Cd.
  - simpl. intros H. apply in_map_iff in H. destruct H as [w [E Hw]].
    apply delete_one_incl in Hw.
    apply (fresh_id s OK). rewrite <- E. now apply in_map.
  - simpl. now apply delete_one_email_gone.
Qed.

End ModelMore.

(** ** The further properties at work *)

Lemma deleteUser_unknown_id_witness :
  app Date_iso (DELETE_deleteUser id_unknown) two_users
  = (json 404 (Message "User not found"), two_users).
Proof.
  apply (deleteUser_unknown_id Date_iso id_unknown two_users).
  - reflexivity.
  - intros u [<- | [<- | []]]; discriminate.
Defined.

Lemma deleteUser_removes_witness :
  fst (app Date_iso (DELETE_deleteUser id0) two_users)
  = json 200 (MessageUser "User deleted successfully"
                (mkUser 0%N "John Doe" "johndoe@example.com"
                   631152000000%Z))
  /\ Datatypes.S
       (List.length
          (collection (snd (app Date_iso (DELETE_deleteUser id0) two_users))))
     = 2.
Proof.
  assert (OK : Store_ok two_users) by solve_Store_ok.
  pose proof
    (deleteUser_removes Date_iso id0 two_users
       (mkUser 0%N "John Doe" "johndoe@example.com" 631152000000%Z)
       OK (or_introl eq_refl) eq_refl) as (H1 & H2 & _).
  exact (conj H1 H2).
Defined.

Lemma collection_invariant_witness :
  NoDup
    (map email
       (collection
          (snd (serve (UserModel Date_iso)
                  [POST_createUser john; POST_createUser jane;
                   PUT_updateUser id0 jane]
                  empty_store)))).
Proof.
  assert (OK : Store_ok empty_store) by (now apply Store_ok_empty).
  exact (proj1 (proj2
                  (collection_invariant Date_iso
                     [POST_createUser john; POST_createUser jane;
                      PUT_updateUser id0 jane]
                     empty_store OK))).
Defined.

Lemma failed_request_keeps_collection_witness :
  collection (snd (app Date_iso (POST_createUser john) two_users))
  = collection two_users.
Proof.
  apply (proj1 (failed_request_keeps_collection Date_iso
                  (POST_createUser john) two_users));
    vm_compute; discriminate.
Defined.

Lemma create_then_delete_witness :
  exists u,
    fst (serve (UserModel Date_iso)
           [POST_createUser (mkBody (JStr "Jim") (JStr "jim@example.com")
                               (JStr "2001-02-03"));
            DELETE_deleteUser id2] two_users)
    = [ json 201 (MessageUser "User created successfully" u);
        json 200 (MessageUser "User deleted successfully" u) ]
    /\ collection
         (snd (serve (UserModel Date_iso)
                 [POST_createUser (mkBody (JStr "Jim") (JStr "jim@example.com")
                                     (JStr "2001-02-03"));
                  DELETE_deleteUser id2] two_users))
       = collection two_users.
Proof.
  apply (create_then_delete Date_iso
           (mkBody (JStr "Jim") (JStr "jim@example.com") (JStr "2001-02-03"))
           id2 two_users); reflexivity.
Defined.

Lemma delete_twice_witness :
  app Date_iso (DELETE_deleteUser id0)
    (snd (app Date_iso (DELETE_deleteUser id0) two_users))
  = (json 404 (Message "User not found"),
     snd (app Date_iso (DELETE_deleteUser id0) two_users)).
Proof.
  assert (OK : Store_ok two_users) by solve_Store_ok.
  apply (delete_twice Date_iso id0 two_users OK). reflexivity.
Defined.

Lemma update_without_fields_witness :
  app Date_iso (PUT_updateUser id0 no_fields) two_users
  = (json 200
       (MessageUser "User updated successfully"
          (mkUser 0%N "John Doe" "johndoe@example.com" 631152000000%Z)),
     two_users).
Proof.
  assert (OK : Store_ok two_users) by solve_Store_ok.
  apply (update_without_fields Date_iso id0 two_users _ OK
           (or_introl eq_refl) eq_refl).
Defined.

Lemma update_blank_rejected_witness :
  status
    (fst (app Date_iso
            (PUT_updateUser id0 (mkBody JNull JUndefined JUndefined))
            two_users)) = 500
  /\ snd (app Date_iso
            (PUT_updateUser id0 (mkBody JNull JUndefined JUndefined))
            two_users) = two_users.
Proof.
  apply (update_blank_rejected Date_iso id0
           (mkBody JNull JUndefined JUndefined) two_users).
  - reflexivity.
  - left. reflexivity.
Defined.

Lemma create_invalid_date_witness :
  fst (app Date_iso
         (POST_createUser (mkBody (JStr "Jim") (JStr "jim@example.com")
                             (JStr "not a date")))
         two_users)
  = json 500 (MessageError "Error creating user"
                (ValidationError ["dateOfBirth"]))
  /\ collection
       (snd (app Date_iso
               (POST_createUser (mkBody (JStr "Jim") (JStr "jim@example.com")
                                   (JStr "not a date")))
               two_users))
     = collection two_users.
Proof.
  apply (create_invalid_date Date_iso
           (mkBody (JStr "Jim") (JStr "jim@example.com") (JStr "not a date"))
           two_users); reflexivity.
Defined.

Lemma update_idempotent_witness :
  status
    (fst (app Date_iso
            (PUT_updateUser id0
               (mkBody (JStr "Johnny") JUndefined (JStr "1991-01-01")))
            two_users)) = 200
  /\ app Date_iso
       (PUT_updateUser id0
          (mkBody (JStr "Johnny") JUndefined (JStr "1991-01-01")))
       (snd (app Date_iso
               (PUT_updateUser id0
                  (mkBody (JStr "Johnny") JUndefined (JStr "1991-01-01")))
               two_users))
     = (fst (app Date_iso
               (PUT_updateUser id0
                  (mkBody (JStr "Johnny") JUndefined (JStr "1991-01-01")))
               two_users),
        snd (app Date_iso
               (PUT_updateUser id0
                  (mkBody (JStr "Johnny") JUndefined (JStr "1991-01-01")))
               two_users)).
Proof.
  split; [reflexivity |].
  apply (update_idempotent Date_iso id0
           (mkBody (JStr "Johnny") JUndefined (JStr "1991-01-01")) two_users).
  reflexivity.
Defined.

Lemma record_persists_witness :
  In 1%N
    (ids (snd (serve (UserModel Date_iso)
                 [DELETE_deleteUser id0; POST_createUser john;
                  PUT_updateUser id0 jane; DELETE_deleteUser "abc"]
                 two_users))).
Proof.
  apply (record_persists Date_iso
           [DELETE_deleteUser id0; POST_createUser john;
            PUT_updateUser id0 jane; DELETE_deleteUser "abc"]
           two_users 1%N).
  - simpl. tauto.
  - intros id [H | [H | [H | [H | []]]]]; try discriminate;
      injection H as <-; discriminate.
Defined.

Lemma delete_frees_email_witness :
  fst (app Date_iso (POST_createUser john) two_users)
  = json 500 (MessageError "Error creating user" (DuplicateKey "email_1"))
  /\ fst (serve (UserModel Date_iso)
            [DELETE_deleteUser id0; POST_createUser john] two_users)
     = [ json 200 (MessageUser "User deleted successfully"
                     (mkUser 0%N "John Doe" "johndoe@example.com"
                        631152000000%Z));
         json 201 (MessageUser "User created successfully"
                     (mkUser 2%N "John Doe" "johndoe@example.com"
                        631152000000%Z)) ].
Proof.
  assert (OK : Store_ok two_users) by solve_Store_ok.
  apply (delete_frees_email Date_iso id0 john two_users
           (mkUser 0%N "John Doe" "johndoe@example.com" 631152000000%Z)
           "John Doe" 631152000000%Z OK (or_introl eq_refl));
    reflexivity.
Defined.
